(** * Morning Routine Tracker development server ([server.py])

    A shallow embedding of the request handler [MorningRoutineHandler] and of
    the start-up routine [main], with the properties of its specification.

    The handler derives from Python's [http.server.SimpleHTTPRequestHandler].
    The inherited methods it calls ([send_response], [send_header],
    [end_headers], [send_error], [do_GET], [do_HEAD]) are embedded from the
    CPython 3.11 library, with [self.end_headers] left open so that the
    override of the derived class is the one the inherited code runs.

    Scope of the model: one request whose request line has been parsed and
    carries an HTTP/1.x version, so that the library emits status lines and
    headers (for a version-less HTTP/0.9 request line it emits neither);
    the clock is read once per request; logging to stderr is left out. *)

From Stdlib Require Import Strings.String Strings.Ascii Lists.List Strings.Byte.
From Stdlib Require Import DecimalString Decimal.
From stdpp Require Import base gmap strings list.

Local Open Scope string_scope.
Set Warnings "-abstract-large-number".

(** ** Python primitives *)

(** [str(n)] for a non-negative integer. *)
Definition str (n : nat) : string := NilEmpty.string_of_uint (Nat.to_uint n).

(** [s.endswith(suffix)]. *)
Definition endswith (s suffix : string) : bool :=
  bool_decide (list_ascii_of_string suffix `suffix_of` list_ascii_of_string s).

(** [s == t] on strings. *)
Definition str_eq (s t : string) : bool := bool_decide (s = t).

(** [s.lower()], on the ASCII letters. *)
Definition lower_ascii (c : ascii) : ascii :=
  let n := nat_of_ascii c in
  if (65 <=? n)%nat && (n <=? 90)%nat then ascii_of_nat (n + 32) else c.

Fixpoint lower (s : string) : string :=
  match s with
  | EmptyString => EmptyString
  | String c s' => String (lower_ascii c) (lower s')
  end.

(** [html.escape(s, quote=False)]. *)
Fixpoint html_escape (s : string) : string :=
  match s with
  | EmptyString => EmptyString
  | String c s' =>
      (if bool_decide (c = "&"%char) then "&amp;"
       else if bool_decide (c = "<"%char) then "&lt;"
       else if bool_decide (c = ">"%char) then "&gt;"
       else String c EmptyString) +:+ html_escape s'
  end.

(** [s * n]. *)
Fixpoint str_mul (s : string) (n : nat) : string :=
  match n with
  | O => EmptyString
  | S n' => s +:+ str_mul s n'
  end.

(** ** The connection and the working directory *)

(** One entry of the header buffer, kept structured; [render_line] gives the
    bytes the library appends to [_headers_buffer]. *)
Inductive line : Type :=
  | StatusLine (protocol : string) (code : nat) (message : string)
  | HeaderLine (keyword value : string)
  | BlankLine.

(** One [wfile.write]: a flushed header buffer, or raw bytes. *)
Inductive chunk : Type :=
  | Head (ls : list line)
  | Data (bs : list byte).

Definition CRLF : string := String (ascii_of_nat 13) (String (ascii_of_nat 10) EmptyString).

Definition render_line (l : line) : list byte :=
  list_byte_of_string
    match l with
    | StatusLine protocol code message =>
        protocol +:+ " " +:+ str code +:+ " " +:+ message +:+ CRLF
    | HeaderLine keyword value => keyword +:+ ": " +:+ value +:+ CRLF
    | BlankLine => CRLF
    end.

Definition render_chunk (c : chunk) : list byte :=
  match c with
  | Head ls => concat (map render_line ls)
  | Data bs => bs
  end.

(** The byte stream a list of writes puts on the connection. *)
Definition render (w : list chunk) : list byte := concat (map render_chunk w).

(** An entry of the working directory. *)
Inductive node : Type :=
  | File (content : list byte)
  | Dir.

(** What [SimpleHTTPRequestHandler.send_head] finds on disk for a request
    path: each constructor stands for one branch of the library function. *)
Inductive static_result : Type :=
  | SRedirect (new_url : string)
      (* a directory requested without trailing slash *)
  | SListing (enc : string) (encoded : list byte)
      (* a directory without index file, listed *)
  | SListingDenied
      (* a directory that [os.listdir] cannot read *)
  | SNotFound
      (* trailing slash on a file name, or [open] raises [OSError] *)
  | SNotModified
      (* [If-Modified-Since] is not older than the file *)
  | SFile (ctype : string) (last_modified : string) (content : list byte).
      (* a regular file, with its guessed type and modification date *)

(** The surroundings of one request. *)
Record env : Type := {
  cwd : gmap string node;            (* the working directory, by name *)
  version_string : string;           (* [self.version_string()] *)
  date_time_string : string;         (* [self.date_time_string()] *)
  lookup_static : string -> static_result;
  repr : string -> string            (* ['%r' % s] *)
}.

(** The attributes of a handler instance that the request code reads or
    writes. *)
Record handler : Type := {
  command : string;
  path : string;
  headers_buffer : list line;
  wfile : list chunk;
  close_connection : bool
}.

Definition set_path (p : string) (h : handler) : handler :=
  {| command := command h; path := p; headers_buffer := headers_buffer h;
     wfile := wfile h; close_connection := close_connection h |}.

Definition set_headers_buffer (b : list line) (h : handler) : handler :=
  {| command := command h; path := path h; headers_buffer := b;
     wfile := wfile h; close_connection := close_connection h |}.

Definition set_close_connection (b : bool) (h : handler) : handler :=
  {| command := command h; path := path h; headers_buffer := headers_buffer h;
     wfile := wfile h; close_connection := b |}.

(** [self.wfile.write(c)]. *)
Definition write (c : chunk) (h : handler) : handler :=
  {| command := command h; path := path h; headers_buffer := headers_buffer h;
     wfile := wfile h ++ [c]; close_connection := close_connection h |}.

(** How a method call ends. *)
Inductive outcome : Type :=
  | Returned
  | Raised (exc : string).

(** Sequencing of statements that update the handler. *)
Definition seq (f g : handler -> handler) : handler -> handler :=
  fun h => g (f h).

Declare Scope stmt_scope.
Delimit Scope stmt_scope with stmt.
Notation "f ;; g" := (seq f g)
  (at level 100, g at level 200, right associativity) : stmt_scope.

(** ** [http.server.BaseHTTPRequestHandler] *)

Module BaseHTTPRequestHandler.

Definition protocol_version : string := "HTTP/1.0".

Definition error_content_type : string := "text/html;charset=utf-8".

(** [self.responses]: short and long message of a status code, for the
    codes this server sends. *)
Definition responses (code : nat) : option (string * string) :=
  match code with
  | 200 => Some ("OK", "Request fulfilled, document follows")
  | 301 => Some ("Moved Permanently", "Object moved permanently -- see URI list")
  | 304 => Some ("Not Modified", "Document has not changed since given time")
  | 404 => Some ("Not Found", "Nothing matches the given URI")
  | 501 => Some ("Not Implemented", "Server does not support this operation")
  | _ => None
  end.

Definition dquote : string := String (ascii_of_nat 34) EmptyString.
Definition LF : string := String (ascii_of_nat 10) EmptyString.

(** [self.error_message_format % {code, message, explain}]. *)
Definition error_message_format (code : nat) (message explain : string) : string :=
  "<!DOCTYPE HTML>" +:+ LF +:+
  "<html lang=" +:+ dquote +:+ "en" +:+ dquote +:+ ">" +:+ LF +:+
  "    <head>" +:+ LF +:+
  "        <meta charset=" +:+ dquote +:+ "utf-8" +:+ dquote +:+ ">" +:+ LF +:+
  "        <title>Error response</title>" +:+ LF +:+
  "    </head>" +:+ LF +:+
  "    <body>" +:+ LF +:+
  "        <h1>Error response</h1>" +:+ LF +:+
  "        <p>Error code: " +:+ str code +:+ "</p>" +:+ LF +:+
  "        <p>Message: " +:+ message +:+ ".</p>" +:+ LF +:+
  "        <p>Error code explanation: " +:+ str code +:+ " - " +:+ explain
    +:+ ".</p>" +:+ LF +:+
  "    </body>" +:+ LF +:+
  "</html>" +:+ LF.

Section Methods.
Variable e : env.
Local Open Scope stmt_scope.

Definition send_response_only (code : nat) (message : option string)
    (h : handler) : handler :=
  let message :=
    match message with
    | Some m => m
    | None => match responses code with
              | Some (short, _) => short
              | None => EmptyString
              end
    end in
  set_headers_buffer
    (headers_buffer h ++ [StatusLine protocol_version code message]) h.

Definition send_header (keyword value : string) (h : handler) : handler :=
  let h := set_headers_buffer (headers_buffer h ++ [HeaderLine keyword value]) h in
  if str_eq (lower keyword) "connection" then
    if str_eq (lower value) "close" then set_close_connection true h
    else if str_eq (lower value) "keep-alive" then set_close_connection false h
    else h
  else h.

Definition send_response (code : nat) (message : option string)
    : handler -> handler :=
  send_response_only code message ;;
  send_header "Server" (version_string e) ;;
  send_header "Date" (date_time_string e).

Definition flush_headers (h : handler) : handler :=
  set_headers_buffer [] (write (Head (headers_buffer h)) h).

Definition end_headers (h : handler) : handler :=
  flush_headers (set_headers_buffer (headers_buffer h ++ [BlankLine]) h).

(** [send_error]; [self_end_headers] is the [end_headers] of the class of
    [self]. *)
Definition send_error (self_end_headers : handler -> handler)
    (code : nat) (message explain : option string) (h : handler) : handler :=
  let '(shortmsg, longmsg) :=
    match responses code with
    | Some r => r
    | None => ("???", "???")
    end in
  let message := default shortmsg message in
  let explain := default longmsg explain in
  let h := send_response code (Some message) h in
  let h := send_header "Connection" "close" h in
  let has_body :=
    (200 <=? code)%nat
    && negb (bool_decide (code ∈ [204; 205; 304])) in
  let body :=
    list_byte_of_string
      (error_message_format code (html_escape message) (html_escape explain)) in
  let h :=
    if has_body then
      (send_header "Content-Type" error_content_type ;;
       send_header "Content-Length" (str (length body))) h
    else h in
  let h := self_end_headers h in
  if negb (str_eq (command h) "HEAD") && has_body
     && negb (bool_decide (body = []))
  then write (Data body) h
  else h.

End Methods.

End BaseHTTPRequestHandler.

(** ** [http.server.SimpleHTTPRequestHandler] *)

Module SimpleHTTPRequestHandler.
Import BaseHTTPRequestHandler.

Section Methods.
Variable e : env.
Variable self_end_headers : handler -> handler.
Local Open Scope stmt_scope.

(** [send_head]: the status line and headers, and the file object to
    copy, if any. The content length is that of the bytes copied. *)
Definition send_head (h : handler) : option (list byte) * handler :=
  match lookup_static e (path h) with
  | SRedirect new_url =>
      (None,
       (send_response e 301 None ;;
        send_header "Location" new_url ;;
        send_header "Content-Length" "0" ;;
        self_end_headers) h)
  | SListingDenied =>
      (None,
       send_error e self_end_headers 404
         (Some "No permission to list directory") None h)
  | SListing enc encoded =>
      (Some encoded,
       (send_response e 200 None ;;
        send_header "Content-type" ("text/html; charset=" +:+ enc) ;;
        send_header "Content-Length" (str (length encoded)) ;;
        self_end_headers) h)
  | SNotFound =>
      (None, send_error e self_end_headers 404 (Some "File not found") None h)
  | SNotModified =>
      (None, (send_response e 304 None ;; self_end_headers) h)
  | SFile ctype last_modified content =>
      (Some content,
       (send_response e 200 None ;;
        send_header "Content-type" ctype ;;
        send_header "Content-Length" (str (length content)) ;;
        send_header "Last-Modified" last_modified ;;
        self_end_headers) h)
  end.

(** [copyfile(f, self.wfile)]. *)
Definition copyfile (source : list byte) : handler -> handler :=
  write (Data source).

Definition do_GET (h : handler) : outcome * handler :=
  match send_head h with
  | (Some f, h) => (Returned, copyfile f h)
  | (None, h) => (Returned, h)
  end.

Definition do_HEAD (h : handler) : outcome * handler :=
  match send_head h with
  | (_, h) => (Returned, h)
  end.

End Methods.

End SimpleHTTPRequestHandler.

(** ** Method lookup *)

(** The methods of a handler class that a request can reach. *)
Record class : Type := {
  end_headers_of : handler -> handler;
  do_GET_of : handler -> outcome * handler;
  do_HEAD_of : handler -> outcome * handler
}.

(** [getattr(self, 'do_' + command)], when the class has it. *)
Definition lookup_method (c : class) (command : string)
    : option (handler -> outcome * handler) :=
  if str_eq command "GET" then Some (do_GET_of c)
  else if str_eq command "HEAD" then Some (do_HEAD_of c)
  else None.

(** [handle_one_request], from the parsed request line on. *)
Definition handle_one_request (e : env) (c : class) (h : handler)
    : outcome * handler :=
  match lookup_method c (command h) with
  | None =>
      (Returned,
       BaseHTTPRequestHandler.send_error e (end_headers_of c) 501
         (Some ("Unsupported method (" +:+ repr e (command h) +:+ ")")) None h)
  | Some method => method h
  end.

(** The methods of [SimpleHTTPRequestHandler] as inherited by a class whose
    [end_headers] is [self_end_headers]. *)
Definition inherited (e : env) (self_end_headers : handler -> handler) : class :=
  {| end_headers_of := self_end_headers;
     do_GET_of := SimpleHTTPRequestHandler.do_GET e self_end_headers;
     do_HEAD_of := SimpleHTTPRequestHandler.do_HEAD e self_end_headers |}.

(** The library class itself. *)
Definition SimpleHTTPRequestHandler_class (e : env) : class :=
  inherited e BaseHTTPRequestHandler.end_headers.

(** ** [server.py] *)

Definition PORT : nat := 8000.

(** [open(name, 'rb')] followed by [f.read()], in the working directory. *)
Inductive open_result : Type :=
  | Opened (content : list byte)
  | FileNotFoundError
  | IsADirectoryError.

Definition open_rb (e : env) (name : string) : open_result :=
  match cwd e !! name with
  | Some (File content) => Opened content
  | Some Dir => IsADirectoryError
  | None => FileNotFoundError
  end.

Module MorningRoutineHandler.
Import BaseHTTPRequestHandler.

Section Methods.
Variable e : env.
Local Open Scope stmt_scope.

Definition end_headers (h : handler) : handler :=
  (* Add PWA-friendly headers *)
  let h := send_header "Cache-Control" "no-cache" h in
  let h := send_header "Access-Control-Allow-Origin" "*" h in
  let h := send_header "Access-Control-Allow-Methods" "GET, POST, OPTIONS" h in
  let h := send_header "Access-Control-Allow-Headers" "Content-Type" h in
  (* Service Worker headers *)
  let h :=
    if endswith (path h) ".js" then
      send_header "Content-Type" "application/javascript" h
    else if endswith (path h) ".json" then
      send_header "Content-Type" "application/json" h
    else if endswith (path h) ".png" then
      send_header "Content-Type" "image/png" h
    else h in
  BaseHTTPRequestHandler.end_headers h.

Definition do_GET (h : handler) : outcome * handler :=
  (* Handle root path *)
  let h := if str_eq (path h) "/" then set_path "/index.html" h else h in
  (* Handle service worker *)
  if str_eq (path h) "/sw.js" then
    let h :=
      (send_response e 200 None ;;
       send_header "Content-Type" "application/javascript" ;;
       send_header "Service-Worker-Allowed" "/" ;;
       end_headers) h in
    match open_rb e "sw.js" with
    | Opened content => (Returned, write (Data content) h)
    | FileNotFoundError => (Returned, send_error e end_headers 404 None None h)
    | IsADirectoryError => (Raised "IsADirectoryError", h)
    end
  (* Handle manifest *)
  else if str_eq (path h) "/manifest.json" then
    let h :=
      (send_response e 200 None ;;
       send_header "Content-Type" "application/manifest+json" ;;
       end_headers) h in
    match open_rb e "manifest.json" with
    | Opened content => (Returned, write (Data content) h)
    | FileNotFoundError => (Returned, send_error e end_headers 404 None None h)
    | IsADirectoryError => (Raised "IsADirectoryError", h)
    end
  (* Default handling *)
  else SimpleHTTPRequestHandler.do_GET e end_headers h.

(** The class: [end_headers] and [do_GET] overridden, the rest inherited. *)
Definition cls : class :=
  {| end_headers_of := end_headers;
     do_GET_of := do_GET;
     do_HEAD_of := do_HEAD_of (inherited e end_headers) |}.

End Methods.

End MorningRoutineHandler.

(** A handler instance when the method for a request is called: nothing
    buffered, nothing written. *)
Definition request (command path : string) : handler :=
  {| command := command; path := path; headers_buffer := [];
     wfile := []; close_connection := true |}.

(** The reply of handler class [c] to a request: the writes on the
    connection, in order. *)
Definition reply (e : env) (c : class) (command path : string) : list chunk :=
  wfile (snd (handle_one_request e c (request command path))).

(** What a client reads: status and header fields from the first header
    block, and as body every byte written after it. *)
Record response : Type := {
  status : nat;
  headers : list (string * string);
  body : list byte
}.

Definition header_fields (ls : list line) : list (string * string) :=
  omap (fun l => match l with HeaderLine k v => Some (k, v) | _ => None end) ls.

Definition response_of (w : list chunk) : option response :=
  match w with
  | Head (StatusLine _ code _ :: ls) :: rest =>
      Some {| status := code; headers := header_fields ls; body := render rest |}
  | _ => None
  end.

(** ** Start-up: [main] *)

(** What [main] does to the outside, in order. *)
Inductive event : Type :=
  | Print (s : string)              (* [print(s)] *)
  | Bind (port : nat)               (* [socketserver.TCPServer(("", port), ...)] *)
  | OpenBrowser (url : string)      (* [webbrowser.open(url)] *)
  | ServeForever                    (* [httpd.serve_forever()] *)
  | ServerClose.                    (* leaving the [with] block *)

(** An [OSError] with its [errno] and [strerror]. *)
Record os_error : Type := { errno : nat; strerror : string }.

(** [str(e)] for an [OSError]. *)
Definition os_error_str (err : os_error) : string :=
  "[Errno " +:+ str (errno err) +:+ "] " +:+ strerror err.

Inductive bind_result : Type :=
  | Bound
  | BindFails (err : os_error).

Inductive browser_result : Type :=
  | BrowserReturns
  | BrowserRaises.

Inductive serve_result : Type :=
  | ServesForever
  | KeyboardInterrupt
  | ServeFails (err : os_error).

(** The machine [main] starts on. *)
Record host : Type := {
  directory : gmap string node;      (* the working directory, by name *)
  bind : bind_result;
  browser : browser_result;
  serve : serve_result
}.

(** How [main] ends: it returns to its caller, or it stays in the serve
    loop. Every exception of the modelled calls is caught inside [main]. *)
Inductive main_outcome : Type :=
  | MainReturns
  | MainServes.

(** [Path(f).exists()]. *)
Definition exists_ (m : gmap string node) (f : string) : bool :=
  bool_decide (is_Some (m !! f)).

Definition required_files : list string :=
  ["index.html"; "styles.css"; "app.js"; "manifest.json"; "sw.js"].

Definition missing_files (m : gmap string node) : list string :=
  filter (fun f => exists_ m f = false) required_files.

Definition NL : string := String (ascii_of_nat 10) EmptyString.

Definition banner : list event :=
  [ Print "🌅 Morning Routine Tracker - Development Server";
    Print (str_mul "=" 50);
    Print ("Starting server on port " +:+ str PORT +:+ "...");
    Print ("Access your app at: http://localhost:" +:+ str PORT);
    Print (NL +:+ "📱 PWA Features:");
    Print "   ✅ Service Worker for offline functionality";
    Print "   ✅ Web App Manifest for installation";
    Print "   ✅ Responsive design for mobile/desktop";
    Print "   ✅ Local data storage";
    Print (NL +:+ "🧠 Neuroscience Features:");
    Print "   ✅ 5-4-3-2-1 Activation Counter";
    Print "   ✅ Circadian Rhythm Optimization";
    Print "   ✅ Dopamine Reward System";
    Print "   ✅ Habit Formation Tracking";
    Print (NL +:+ "💡 Usage Tips:");
    Print "   - Use Chrome/Edge for best PWA experience";
    Print "   - Click 'Install App' in browser for native feel";
    Print "   - Enable notifications for routine reminders";
    Print "   - Works offline after first visit";
    Print (NL +:+ "Press Ctrl+C to stop the server");
    Print (str_mul "=" 50) ].

(** The [except OSError as e] clause. *)
Definition on_os_error (err : os_error) : list event :=
  if bool_decide (errno err = 48) then  (* Port already in use *)
    [ Print ("❌ Port " +:+ str PORT +:+ " is already in use.");
      Print "Try closing other applications or use a different port." ]
  else
    [ Print ("❌ Error starting server: " +:+ os_error_str err) ].

(** The [except KeyboardInterrupt] clause. *)
Definition on_keyboard_interrupt : list event :=
  [ Print (NL +:+ NL +:+ "🛑 Server stopped by user");
    Print "Thanks for using Morning Routine Tracker! 🌅" ].

Local Open Scope list_scope.

Definition main (m : host) : list event * main_outcome :=
  (* Check if required files exist *)
  let missing := missing_files (directory m) in
  if negb (bool_decide (missing = [])) then
    ([ Print "❌ Missing required files:" ]
       ++ map (fun file => Print ("   - " +:+ file)) missing
       ++ [ Print (NL +:+ "Please ensure all files are in the current directory.") ],
     MainReturns)
  else
    (* Check for icons directory *)
    let warning :=
      if negb (exists_ (directory m) "icons") then
        [ Print "⚠️  Warning: 'icons' directory not found. PWA icons may not load properly." ]
      else [] in
    let started := warning ++ banner ++ [ Bind PORT ] in
    match bind m with
    | BindFails err => (started ++ on_os_error err, MainReturns)
    | Bound =>
        let opened :=
          started
          ++ [ Print "✅ Server started successfully!";
               Print ("🌐 Open http://localhost:" +:+ str PORT +:+ " in your browser");
               OpenBrowser ("http://localhost:" +:+ str PORT) ]
          (* Auto-open browser *)
          ++ match browser m with
             | BrowserReturns => [ Print "🚀 Opening browser automatically..." ]
             | BrowserRaises =>
                 [ Print "🔍 Please manually open http://localhost:{PORT} in your browser" ]
             end
          ++ [ ServeForever ] in
        match serve m with
        | ServesForever => (opened, MainServes)
        | KeyboardInterrupt =>
            (opened ++ [ ServerClose ] ++ on_keyboard_interrupt, MainReturns)
        | ServeFails err =>
            (opened ++ [ ServerClose ] ++ on_os_error err, MainReturns)
        end
    end.

(** ** Vocabulary of the properties *)

(** The four headers [MorningRoutineHandler.end_headers] sends first. *)
Definition PWA_headers : list line :=
  [ HeaderLine "Cache-Control" "no-cache";
    HeaderLine "Access-Control-Allow-Origin" "*";
    HeaderLine "Access-Control-Allow-Methods" "GET, POST, OPTIONS";
    HeaderLine "Access-Control-Allow-Headers" "Content-Type" ].

(** The content-type header it sends next, by the extension of the request
    path. *)
Definition content_type_override (p : string) : list line :=
  if endswith p ".js" then [ HeaderLine "Content-Type" "application/javascript" ]
  else if endswith p ".json" then [ HeaderLine "Content-Type" "application/json" ]
  else if endswith p ".png" then [ HeaderLine "Content-Type" "image/png" ]
  else [].

(** A header block that ends with the four headers, at most an extension
    header, and the blank line. *)
Definition decorated (ls : list line) : Prop :=
  exists pre ext, ls = pre ++ PWA_headers ++ ext ++ [ BlankLine ].

(** A write of the library handler, with the headers of
    [MorningRoutineHandler.end_headers] put before the blank line of a header
    block. *)
Definition decorate (p : string) (c : chunk) : chunk :=
  match c with
  | Head ls => Head (removelast ls ++ PWA_headers ++ content_type_override p ++ [ BlankLine ])
  | Data bs => Data bs
  end.

(** An [end_headers] that appends [tail] of the request path to the buffer
    and flushes it. *)
Definition flushes (tail : string -> list line) (eh : handler -> handler) : Prop :=
  forall h,
    eh h = write (Head (headers_buffer h ++ tail (path h))) (set_headers_buffer [] h).

(** The page [send_error] sends, and the lines it buffers before
    [end_headers], for a status code that has a body. *)
Definition error_page (code : nat) (message explain : string) : list byte :=
  list_byte_of_string
    (BaseHTTPRequestHandler.error_message_format code
       (html_escape message) (html_escape explain)).

Definition error_lines (e : env) (code : nat) (message explain : string) : list line :=
  [ StatusLine BaseHTTPRequestHandler.protocol_version code message;
    HeaderLine "Server" (version_string e);
    HeaderLine "Date" (date_time_string e);
    HeaderLine "Connection" "close";
    HeaderLine "Content-Type" BaseHTTPRequestHandler.error_content_type;
    HeaderLine "Content-Length" (str (length (error_page code message explain))) ].

(** The status line and the two headers of [send_response]. *)
Definition response_lines (e : env) (code : nat) (message : string) : list line :=
  [ StatusLine BaseHTTPRequestHandler.protocol_version code message;
    HeaderLine "Server" (version_string e);
    HeaderLine "Date" (date_time_string e) ].

(** A reply that starts with a decorated header block with a status line,
    and whose header blocks are all decorated. *)
Definition well_headed (w : list chunk) : Prop :=
  (exists r,
     response_of w = Some r
     /\ [ ("Cache-Control", "no-cache");
          ("Access-Control-Allow-Origin", "*");
          ("Access-Control-Allow-Methods", "GET, POST, OPTIONS");
          ("Access-Control-Allow-Headers", "Content-Type") ] ⊆ headers r)
  /\ Forall (fun c => forall ls, c = Head ls -> decorated ls) w.

(** The content types a reply declares: the values of its Content-Type
    headers, whatever the case of the name, in the order sent. *)
Definition content_types (hs : list (string * string)) : list string :=
  omap (fun kv => if str_eq (lower (fst kv)) "content-type" then Some (snd kv) else None)
    hs.

(** ** A working directory to run the server in *)

Definition bytes_of : string -> list byte := list_byte_of_string.

(** The five required files. *)
Definition site : gmap string node :=
  {[ "index.html" := File (bytes_of "<!DOCTYPE html><title>Morning Routine</title>");
     "styles.css" := File (bytes_of "body { margin: 0 }");
     "app.js" := File (bytes_of "console.log('ready');");
     "manifest.json" := File (bytes_of "{ }");
     "sw.js" := File (bytes_of "self.addEventListener('fetch', () => {});") ]}.

(** The request path up to its query or fragment, without the leading
    slash. *)
Fixpoint cut_query (s : string) : string :=
  match s with
  | EmptyString => EmptyString
  | String c s' =>
      if bool_decide (c = "?"%char) || bool_decide (c = "#"%char) then EmptyString
      else String c (cut_query s')
  end.

Definition url_name (p : string) : string :=
  match p with
  | String "/" s => cut_query s
  | _ => cut_query p
  end.

Definition guess (name : string) : string :=
  if endswith name ".js" then "application/javascript"
  else if endswith name ".json" then "application/json"
  else if endswith name ".html" then "text/html"
  else if endswith name ".css" then "text/css"
  else "application/octet-stream".

(** Static lookup of a one-component request path in directory [d]. *)
Definition static_in (d : gmap string node) (p : string) : static_result :=
  match d !! url_name p with
  | Some (File content) =>
      SFile (guess (url_name p)) "Thu, 01 Jan 2026 00:00:00 GMT" content
  | Some Dir => SRedirect (p +:+ "/")
  | None => SNotFound
  end.

(** A request environment over directory [d]. *)
Definition env_of (d : gmap string node) : env :=
  {| cwd := d;
     version_string := "SimpleHTTP/0.6 Python/3.11.2";
     date_time_string := "Thu, 05 Nov 2026 08:00:00 GMT";
     lookup_static := static_in d;
     repr := fun s => "'" +:+ s +:+ "'" |}.

(** A machine whose working directory is [d] and whose port 8000 is free. *)
Definition host_of (d : gmap string node) : host :=
  {| directory := d; bind := Bound; browser := BrowserReturns;
     serve := KeyboardInterrupt |}.

(** On Linux, [EADDRINUSE] is 98. *)
Definition linux_address_in_use : os_error :=
  {| errno := 98; strerror := "Address already in use" |}.

(** On macOS and the BSDs, [EADDRINUSE] is 48. *)
Definition macos_address_in_use : os_error :=
  {| errno := 48; strerror := "Address already in use" |}.

(** ** The replies of the static handler, written out *)

(** The handler after one reply: buffered lines [ls] and the lines of
    [end_headers] flushed as one header block, then the writes [rest]. *)
Definition emit (tail : string -> list line) (ls : list line) (rest : list chunk)
    (closes : bool) (h : handler) : handler :=
  {| command := command h;
     path := path h;
     headers_buffer := [];
     wfile := wfile h ++ Head (headers_buffer h ++ ls ++ tail (path h)) :: rest;
     close_connection := if closes then true else close_connection h |}.

Definition not_found_explain : string := "Nothing matches the given URI".

(** Whether [send_head] answers with [send_error]. *)
Definition static_error (sr : static_result) : option string :=
  match sr with
  | SListingDenied => Some "No permission to list directory"
  | SNotFound => Some "File not found"
  | _ => None
  end.

(** The lines [send_head] buffers before [end_headers]. *)
Definition static_lines (e : env) (sr : static_result) : list line :=
  match sr with
  | SRedirect new_url =>
      response_lines e 301 "Moved Permanently"
      ++ [ HeaderLine "Location" new_url; HeaderLine "Content-Length" "0" ]
  | SListing enc encoded =>
      response_lines e 200 "OK"
      ++ [ HeaderLine "Content-type" ("text/html; charset=" +:+ enc);
           HeaderLine "Content-Length" (str (length encoded)) ]
  | SListingDenied =>
      error_lines e 404 "No permission to list directory" not_found_explain
  | SNotFound => error_lines e 404 "File not found" not_found_explain
  | SNotModified => response_lines e 304 "Not Modified"
  | SFile ctype last_modified content =>
      response_lines e 200 "OK"
      ++ [ HeaderLine "Content-type" ctype;
           HeaderLine "Content-Length" (str (length content));
           HeaderLine "Last-Modified" last_modified ]
  end.

(** The file object [send_head] returns. *)
Definition static_file (sr : static_result) : option (list byte) :=
  match sr with
  | SListing _ encoded => Some encoded
  | SFile _ _ content => Some content
  | _ => None
  end.

(** The error page [send_error] writes, unless the command is HEAD. *)
Definition error_data (cmd : string) (code : nat) (message explain : string)
    : list chunk :=
  if negb (str_eq cmd "HEAD") then [ Data (error_page code message explain) ] else [].

(** What follows the header block: the page of an error, and for GET the
    file or listing. *)
Definition static_data (get : bool) (cmd : string) (sr : static_result) : list chunk :=
  match sr with
  | SListing _ encoded => if get then [ Data encoded ] else []
  | SFile _ _ content => if get then [ Data content ] else []
  | SListingDenied =>
      error_data cmd 404 "No permission to list directory" not_found_explain
  | SNotFound => error_data cmd 404 "File not found" not_found_explain
  | _ => []
  end.

(** The reply of the static handler whose [end_headers] appends [tail]. *)
Definition static_reply (e : env) (tail : string -> list line) (get : bool)
    (h : handler) : handler :=
  let sr := lookup_static e (path h) in
  emit tail (static_lines e sr) (static_data get (command h) sr)
    (bool_decide (is_Some (static_error sr))) h.

(** The lines [MorningRoutineHandler.end_headers] appends, and those of the
    library's [end_headers]. *)
Definition morning_tail (p : string) : list line :=
  PWA_headers ++ content_type_override p ++ [ BlankLine ].

Definition base_tail (p : string) : list line := [ BlankLine ].

(** The hand-written reply to [name]: its header block, with the lines [ls]
    after those of [send_response], then the file or the error reply. *)
Definition hand_written (e : env) (ls : list line) (name : string) (h : handler)
    : outcome * handler :=
  let sent := emit morning_tail (response_lines e 200 "OK" ++ ls) [] false h in
  match open_rb e name with
  | Opened content => (Returned, write (Data content) sent)
  | FileNotFoundError =>
      (Returned,
       emit morning_tail (error_lines e 404 "Not Found" not_found_explain)
         (error_data (command h) 404 "Not Found" not_found_explain) true sent)
  | IsADirectoryError => (Raised "IsADirectoryError", sent)
  end.

(** ** Vocabulary of the start-up properties *)

(** Whether an event is a [print]. *)
Definition is_print (ev : event) : bool :=
  match ev with
  | Print _ => true
  | _ => false
  end.

(** Whether an event is the construction of the server. *)
Definition is_bind (ev : event) : bool :=
  match ev with
  | Bind _ => true
  | _ => false
  end.

(** The events of [main] from the bind on, when it succeeds, up to the serve
    loop. *)
Definition after_bind (b : browser_result) : list event :=
  [ Print "✅ Server started successfully!";
    Print ("🌐 Open http://localhost:" +:+ str PORT +:+ " in your browser");
    OpenBrowser ("http://localhost:" +:+ str PORT) ]
  ++ match b with
     | BrowserReturns => [ Print "🚀 Opening browser automatically..." ]
     | BrowserRaises =>
         [ Print "🔍 Please manually open http://localhost:{PORT} in your browser" ]
     end
  ++ [ ServeForever ].

(** The warning about the icons directory, when it is printed. *)
Definition icons_warning (d : gmap string node) : list event :=
  if negb (exists_ d "icons") then
    [ Print "⚠️  Warning: 'icons' directory not found. PWA icons may not load properly." ]
  else [].

(** ** Vocabulary of the request properties *)

(** The two request paths with a hand-written reply, with the file each one
    opens and the headers it sends itself. *)
Definition hand_written_paths : list (string * string * list line) :=
  [ ("/sw.js", "sw.js",
     [ HeaderLine "Content-Type" "application/javascript";
       HeaderLine "Service-Worker-Allowed" "/" ]);
    ("/manifest.json", "manifest.json",
     [ HeaderLine "Content-Type" "application/manifest+json" ]) ].

(** The extensions [end_headers] looks for, with the content type of each. *)
Definition extension_types : list (string * string) :=
  [ (".js", "application/javascript");
    (".json", "application/json");
    (".png", "image/png") ].

(** The reply to an unsupported command. *)
Definition unsupported_reply (e : env) (tail : string -> list line) (h : handler)
    : handler :=
  let message := "Unsupported method (" +:+ repr e (command h) +:+ ")" in
  let explain := "Server does not support this operation" in
  emit tail (error_lines e 501 message explain)
    [ Data (error_page 501 message explain) ] true h.

(** What [MorningRoutineHandler] does with a request, by command and path. *)
Definition morning_reply (e : env) (h : handler) : outcome * handler :=
  if str_eq (command h) "GET" then
    if str_eq (path h) "/" then
      (Returned, static_reply e morning_tail true (set_path "/index.html" h))
    else if str_eq (path h) "/sw.js" then
      hand_written e [ HeaderLine "Content-Type" "application/javascript";
                       HeaderLine "Service-Worker-Allowed" "/" ] "sw.js" h
    else if str_eq (path h) "/manifest.json" then
      hand_written e [ HeaderLine "Content-Type" "application/manifest+json" ]
        "manifest.json" h
    else (Returned, static_reply e morning_tail true h)
  else if str_eq (command h) "HEAD" then
    (Returned, static_reply e morning_tail false h)
  else (Returned, unsupported_reply e morning_tail h).

(** Whether a write is a header block. *)
Definition is_head (c : chunk) : bool :=
  match c with
  | Head _ => true
  | Data _ => false
  end.

(** The path a request is served under: [do_GET] rewrites the root path. *)
Definition served_path (cmd p : string) : string :=
  if str_eq cmd "GET" && str_eq p "/" then "/index.html" else p.

(** * Properties *)

(** ** The inherited methods, as equations *)

Ltac hsimpl :=
  unfold set_headers_buffer, write, set_close_connection, set_path;
  cbn [headers_buffer wfile path command close_connection app fst snd default
       negb andb].

Section Inherited.
Variable e : env.
Import BaseHTTPRequestHandler.

Lemma send_header_plain k v h :
  str_eq (lower k) "connection" = false ->
  send_header k v h = set_headers_buffer (headers_buffer h ++ [ HeaderLine k v ]) h.
Proof. intros Hk. unfold send_header. now rewrite Hk. Qed.

Lemma send_header_close h :
  send_header "Connection" "close" h =
  set_close_connection true
    (set_headers_buffer (headers_buffer h ++ [ HeaderLine "Connection" "close" ]) h).
Proof. reflexivity. Qed.

Lemma send_response_message code message h :
  send_response e code (Some message) h =
  set_headers_buffer (headers_buffer h ++ response_lines e code message) h.
Proof.
  unfold send_response, seq, send_response_only.
  rewrite !send_header_plain by (vm_compute; reflexivity).
  destruct h. hsimpl. unfold response_lines. now rewrite <- !app_assoc.
Qed.

Lemma send_response_known code short long h :
  responses code = Some (short, long) ->
  send_response e code None h =
  set_headers_buffer (headers_buffer h ++ response_lines e code short) h.
Proof.
  intros Hr. rewrite <- send_response_message.
  unfold send_response, seq, send_response_only. now rewrite Hr.
Qed.

Lemma flushes_base : flushes (fun _ => [ BlankLine ]) end_headers.
Proof. intros h. now destruct h. Qed.

Lemma flushes_morning :
  flushes (fun p => PWA_headers ++ content_type_override p ++ [ BlankLine ])
    MorningRoutineHandler.end_headers.
Proof.
  intros h. unfold MorningRoutineHandler.end_headers, content_type_override.
  rewrite !send_header_plain by (vm_compute; reflexivity).
  destruct h as [c p b w cc]. hsimpl.
  destruct (endswith p ".js"); [|destruct (endswith p ".json"); [|destruct (endswith p ".png")]];
    rewrite ?send_header_plain by (vm_compute; reflexivity);
    unfold end_headers, flush_headers; hsimpl;
    now rewrite <- !app_assoc.
Qed.

(** [send_error] for a status code that has a body. *)
Lemma send_error_spec tail eh code short long message explain h :
  flushes tail eh ->
  responses code = Some (short, long) ->
  (200 <=? code)%nat && negb (bool_decide (code ∈ [204; 205; 304])) = true ->
  let m := default short message in
  let x := default long explain in
  let sent :=
    write (Head (headers_buffer h ++ error_lines e code m x ++ tail (path h)))
      (set_close_connection true (set_headers_buffer [] h)) in
  send_error e eh code message explain h =
  if negb (str_eq (command h) "HEAD") && negb (bool_decide (error_page code m x = []))
  then write (Data (error_page code m x)) sent
  else sent.
Proof.
  intros Heh Hr Hc m x sent. unfold send_error.
  rewrite Hr, Hc. cbv beta iota zeta. fold m x. fold (error_page code m x).
  unfold seq. rewrite send_response_message, send_header_close.
  rewrite !send_header_plain by (vm_compute; reflexivity).
  rewrite !Heh. subst sent. destruct h as [c p b w cc]. hsimpl.
  unfold error_lines, response_lines. rewrite <- !app_assoc. hsimpl.
  now rewrite andb_true_r.
Qed.

Lemma error_page_nonempty code message explain :
  error_page code message explain <> [].
Proof. discriminate. Qed.

End Inherited.

Section Static.
Variable e : env.
Variable tail : string -> list line.
Variable eh : handler -> handler.
Hypothesis eh_flushes : flushes tail eh.
Import BaseHTTPRequestHandler.

Lemma send_error_emit code short long message h :
  responses code = Some (short, long) ->
  (200 <=? code)%nat && negb (bool_decide (code ∈ [204; 205; 304])) = true ->
  send_error e eh code message None h =
  emit tail (error_lines e code (default short message) long)
    (error_data (command h) code (default short message) long) true h.
Proof.
  intros Hr Hc.
  rewrite (send_error_spec e tail eh code short long) by assumption.
  unfold error_data, emit. hsimpl.
  rewrite (bool_decide_eq_false_2 _ (error_page_nonempty _ _ _)).
  destruct (str_eq (command h) "HEAD"); destruct h; hsimpl;
    now rewrite <- ?app_assoc.
Qed.

Lemma send_head_spec h :
  SimpleHTTPRequestHandler.send_head e eh h =
  (static_file (lookup_static e (path h)), static_reply e tail false h).
Proof.
  unfold SimpleHTTPRequestHandler.send_head, static_reply.
  destruct (lookup_static e (path h)); hsimpl;
    rewrite ?(send_error_emit 404 "Not Found" not_found_explain) by reflexivity;
    unfold seq;
    rewrite ?eh_flushes, ?send_header_plain by (vm_compute; reflexivity);
    rewrite ?(send_response_known e 200 "OK" "Request fulfilled, document follows")
      by reflexivity;
    rewrite ?(send_response_known e 301 "Moved Permanently"
                "Object moved permanently -- see URI list") by reflexivity;
    rewrite ?(send_response_known e 304 "Not Modified"
                "Document has not changed since given time") by reflexivity;
    unfold emit, static_lines, static_data, static_error, static_file;
    destruct h; hsimpl; rewrite <- ?app_assoc; hsimpl;
    rewrite <- ?app_assoc; reflexivity.
Qed.

Lemma simple_do_GET_spec h :
  SimpleHTTPRequestHandler.do_GET e eh h = (Returned, static_reply e tail true h).
Proof.
  unfold SimpleHTTPRequestHandler.do_GET, SimpleHTTPRequestHandler.copyfile.
  rewrite send_head_spec. unfold static_reply, static_file, static_data, emit.
  destruct (lookup_static e (path h)); destruct h; hsimpl;
    rewrite <- ?app_assoc; reflexivity.
Qed.

Lemma simple_do_HEAD_spec h :
  SimpleHTTPRequestHandler.do_HEAD e eh h = (Returned, static_reply e tail false h).
Proof.
  unfold SimpleHTTPRequestHandler.do_HEAD. now rewrite send_head_spec.
Qed.

End Static.

(** ** The methods of [MorningRoutineHandler], by request path *)

Section Morning.
Variable e : env.
Import BaseHTTPRequestHandler.

Lemma morning_flushes : flushes morning_tail MorningRoutineHandler.end_headers.
Proof. exact flushes_morning. Qed.

Lemma do_GET_default h :
  path h <> "/" -> path h <> "/sw.js" -> path h <> "/manifest.json" ->
  MorningRoutineHandler.do_GET e h = (Returned, static_reply e morning_tail true h).
Proof.
  intros H1 H2 H3. unfold MorningRoutineHandler.do_GET, str_eq.
  rewrite (bool_decide_eq_false_2 _ H1). cbv zeta.
  rewrite (bool_decide_eq_false_2 _ H2), (bool_decide_eq_false_2 _ H3).
  apply simple_do_GET_spec, morning_flushes.
Qed.

Lemma do_GET_root h :
  path h = "/" ->
  MorningRoutineHandler.do_GET e h =
  (Returned, static_reply e morning_tail true (set_path "/index.html" h)).
Proof.
  intros H. unfold MorningRoutineHandler.do_GET. rewrite H.
  change (str_eq "/" "/") with true. cbv iota zeta.
  change (path (set_path "/index.html" h)) with "/index.html".
  change (str_eq "/index.html" "/sw.js") with false.
  change (str_eq "/index.html" "/manifest.json") with false. cbv iota.
  apply simple_do_GET_spec, morning_flushes.
Qed.

Lemma do_GET_sw h :
  path h = "/sw.js" ->
  MorningRoutineHandler.do_GET e h =
  hand_written e [ HeaderLine "Content-Type" "application/javascript";
                 HeaderLine "Service-Worker-Allowed" "/" ] "sw.js" h.
Proof.
  intros H. unfold MorningRoutineHandler.do_GET, hand_written. rewrite H.
  change (str_eq "/sw.js" "/") with false. cbv iota zeta. rewrite H.
  change (str_eq "/sw.js" "/sw.js") with true. cbv iota.
  rewrite (send_error_emit e _ _ morning_flushes 404 "Not Found" not_found_explain)
    by reflexivity.
  unfold seq. rewrite morning_flushes.
  rewrite !send_header_plain by (vm_compute; reflexivity).
  rewrite (send_response_known e 200 "OK" "Request fulfilled, document follows")
    by reflexivity.
  unfold emit. destruct h, (open_rb e "sw.js"); hsimpl;
    rewrite <- ?app_assoc; reflexivity.
Qed.

Lemma do_GET_manifest h :
  path h = "/manifest.json" ->
  MorningRoutineHandler.do_GET e h =
  hand_written e [ HeaderLine "Content-Type" "application/manifest+json" ]
    "manifest.json" h.
Proof.
  intros H. unfold MorningRoutineHandler.do_GET, hand_written. rewrite H.
  change (str_eq "/manifest.json" "/") with false. cbv iota zeta. rewrite H.
  change (str_eq "/manifest.json" "/sw.js") with false.
  change (str_eq "/manifest.json" "/manifest.json") with true. cbv iota.
  rewrite (send_error_emit e _ _ morning_flushes 404 "Not Found" not_found_explain)
    by reflexivity.
  unfold seq. rewrite morning_flushes.
  rewrite !send_header_plain by (vm_compute; reflexivity).
  rewrite (send_response_known e 200 "OK" "Request fulfilled, document follows")
    by reflexivity.
  unfold emit. destruct h, (open_rb e "manifest.json"); hsimpl;
    rewrite <- ?app_assoc; reflexivity.
Qed.

End Morning.

(** ** Dispatch *)

Lemma handle_GET e c h :
  command h = "GET" -> handle_one_request e c h = do_GET_of c h.
Proof. intros H. unfold handle_one_request, lookup_method. now rewrite H. Qed.

Lemma handle_HEAD e c h :
  command h = "HEAD" -> handle_one_request e c h = do_HEAD_of c h.
Proof. intros H. unfold handle_one_request, lookup_method. now rewrite H. Qed.

Lemma handle_unsupported e c tail h :
  flushes tail (end_headers_of c) ->
  command h <> "GET" -> command h <> "HEAD" ->
  handle_one_request e c h =
  (Returned,
   let message := "Unsupported method (" +:+ repr e (command h) +:+ ")" in
   let explain := "Server does not support this operation" in
   emit tail (error_lines e 501 message explain)
     [ Data (error_page 501 message explain) ] true h).
Proof.
  intros F H1 H2. unfold handle_one_request, lookup_method, str_eq.
  rewrite (bool_decide_eq_false_2 _ H1), (bool_decide_eq_false_2 _ H2).
  rewrite (send_error_emit e _ _ F 501 "Not Implemented"
             "Server does not support this operation") by reflexivity.
  unfold error_data, str_eq. now rewrite (bool_decide_eq_false_2 _ H2).
Qed.

Lemma content_type_override_js : 
  content_type_override "/sw.js" = [ HeaderLine "Content-Type" "application/javascript" ].
Proof. vm_compute. reflexivity. Qed.

Lemma content_type_override_manifest : 
  content_type_override "/manifest.json" = [ HeaderLine "Content-Type" "application/json" ].
Proof. vm_compute. reflexivity. Qed.

(** ** The service worker and the manifest *)

(** C7. A GET of /sw.js when sw.js is a file of the working directory is
    answered with status 200, the headers Content-Type:
    application/javascript and Service-Worker-Allowed: /, and a body that is
    the content of the file. *)
Theorem C7_sw_js_served (e : env) (content : list byte) :
  cwd e !! "sw.js" = Some (File content) ->
  exists r,
    response_of (reply e (MorningRoutineHandler.cls e) "GET" "/sw.js") = Some r
    /\ status r = 200
    /\ ("Content-Type", "application/javascript") ∈ headers r
    /\ ("Service-Worker-Allowed", "/") ∈ headers r
    /\ body r = content.
Proof.
  intros Hfile. unfold reply.
  rewrite handle_GET by reflexivity.
  cbn [do_GET_of MorningRoutineHandler.cls].
  rewrite do_GET_sw by reflexivity.
  unfold hand_written, open_rb. rewrite Hfile.
  unfold emit, request, morning_tail. hsimpl.
  rewrite content_type_override_js.
  eexists. split; [reflexivity|]. cbn [status headers body].
  split; [reflexivity|].
  split; [|split].
  - apply (list_elem_of_lookup_2 _ 2). reflexivity.
  - apply (list_elem_of_lookup_2 _ 3). reflexivity.
  - unfold render. cbn [map render_chunk concat]. apply app_nil_r.
Qed.

Lemma C7_sw_js_served_witness :
  exists r,
    response_of (reply (env_of site) (MorningRoutineHandler.cls (env_of site)) "GET" "/sw.js")
      = Some r
    /\ status r = 200
    /\ ("Content-Type", "application/javascript") ∈ headers r
    /\ ("Service-Worker-Allowed", "/") ∈ headers r
    /\ body r = bytes_of "self.addEventListener('fetch', () => {});".
Proof. apply (C7_sw_js_served (env_of site)). vm_compute. reflexivity. Defined.

(** A path that ends in [.json] ends neither in [.js] nor in [.png]. *)
Lemma endswith_exclusive p s1 s2 :
  endswith s1 s2 = false -> endswith s2 s1 = false ->
  endswith p s1 = true -> endswith p s2 = false.
Proof.
  unfold endswith. intros H1 H2 Hp.
  apply bool_decide_eq_true_1 in Hp. apply bool_decide_eq_false_2. intros Hq.
  destruct (suffix_weak_total _ _ _ Hp Hq) as [H|H].
  - now apply bool_decide_eq_false_1 in H2.
  - now apply bool_decide_eq_false_1 in H1.
Qed.

(** C2 at GET /manifest.json, where the code misses the claim: with
    manifest.json a file of the working directory the reply has status 200
    and the content of the file as body, but two content types. The method
    sends Content-Type: application/manifest+json itself, and [end_headers],
    as the path ends in .json, sends Content-Type: application/json after it,
    as the last header of the block: the reply does not have the one content
    type application/manifest+json. *)
Theorem C2_manifest_json_two_content_types (e : env) (content : list byte) :
  cwd e !! "manifest.json" = Some (File content) ->
  exists r,
    response_of (reply e (MorningRoutineHandler.cls e) "GET" "/manifest.json") = Some r
    /\ status r = 200
    /\ body r = content
    /\ headers r =
         [ ("Server", version_string e); ("Date", date_time_string e);
           ("Content-Type", "application/manifest+json");
           ("Cache-Control", "no-cache");
           ("Access-Control-Allow-Origin", "*");
           ("Access-Control-Allow-Methods", "GET, POST, OPTIONS");
           ("Access-Control-Allow-Headers", "Content-Type");
           ("Content-Type", "application/json") ]
    /\ content_types (headers r) = [ "application/manifest+json"; "application/json" ]
    /\ content_types (headers r) <> [ "application/manifest+json" ]
    /\ last (headers r) = Some ("Content-Type", "application/json").
Proof.
  intros Hfile. unfold reply. rewrite handle_GET by reflexivity.
  cbn [do_GET_of MorningRoutineHandler.cls].
  rewrite do_GET_manifest by reflexivity.
  unfold hand_written, open_rb. rewrite Hfile.
  unfold emit, request, morning_tail. hsimpl.
  rewrite content_type_override_manifest.
  eexists. split; [reflexivity|]. cbn [status headers body].
  split; [reflexivity|].
  split; [unfold render; cbn [map render_chunk concat]; apply app_nil_r|].
  assert (Hheaders :
    header_fields
      (HeaderLine "Server" (version_string e)
       :: HeaderLine "Date" (date_time_string e)
       :: [ HeaderLine "Content-Type" "application/manifest+json" ]
          ++ PWA_headers
          ++ [ HeaderLine "Content-Type" "application/json" ] ++ [ BlankLine ])
    = [ ("Server", version_string e); ("Date", date_time_string e);
        ("Content-Type", "application/manifest+json");
        ("Cache-Control", "no-cache");
        ("Access-Control-Allow-Origin", "*");
        ("Access-Control-Allow-Methods", "GET, POST, OPTIONS");
        ("Access-Control-Allow-Headers", "Content-Type");
        ("Content-Type", "application/json") ]) by reflexivity.
  cbn [app] in *. rewrite Hheaders.
  split; [reflexivity|]. split; [vm_compute; reflexivity|].
  split; [vm_compute; discriminate|reflexivity].
Qed.

Lemma C2_manifest_json_two_content_types_witness :
  exists r,
    response_of (reply (env_of site) (MorningRoutineHandler.cls (env_of site))
                   "GET" "/manifest.json") = Some r
    /\ status r = 200
    /\ body r = bytes_of "{ }"
    /\ headers r =
         [ ("Server", version_string (env_of site));
           ("Date", date_time_string (env_of site));
           ("Content-Type", "application/manifest+json");
           ("Cache-Control", "no-cache");
           ("Access-Control-Allow-Origin", "*");
           ("Access-Control-Allow-Methods", "GET, POST, OPTIONS");
           ("Access-Control-Allow-Headers", "Content-Type");
           ("Content-Type", "application/json") ]
    /\ content_types (headers r) = [ "application/manifest+json"; "application/json" ]
    /\ content_types (headers r) <> [ "application/manifest+json" ]
    /\ last (headers r) = Some ("Content-Type", "application/json").
Proof.
  apply (C2_manifest_json_two_content_types (env_of site)). vm_compute. reflexivity.
Defined.

(** C1, amended. A GET of /sw.js when sw.js is absent from the working
    directory ends with the not-found error reply of the library: a header
    block with status line 404 Not Found, followed by the HTML error page,
    which is not empty. *)
Theorem C1_sw_js_absent (e : env) :
  cwd e !! "sw.js" = None ->
  exists sent ls page,
    reply e (MorningRoutineHandler.cls e) "GET" "/sw.js"
      = sent ++ [ Head (StatusLine "HTTP/1.0" 404 "Not Found" :: ls); Data page ]
    /\ page = error_page 404 "Not Found" "Nothing matches the given URI"
    /\ page <> [].
Proof.
  intros Habsent. unfold reply.
  rewrite handle_GET by reflexivity.
  cbn [do_GET_of MorningRoutineHandler.cls].
  rewrite do_GET_sw by reflexivity.
  unfold hand_written, open_rb. rewrite Habsent.
  unfold emit, request, error_data, error_lines. hsimpl.
  change (str_eq "GET" "HEAD") with false. cbn [negb].
  eexists [_], _, _. split; [reflexivity|].
  split; [reflexivity|]. apply error_page_nonempty.
Qed.

Lemma C1_sw_js_absent_witness :
  exists sent ls page,
    reply (env_of ∅) (MorningRoutineHandler.cls (env_of ∅)) "GET" "/sw.js"
      = sent ++ [ Head (StatusLine "HTTP/1.0" 404 "Not Found" :: ls); Data page ]
    /\ page = error_page 404 "Not Found" "Nothing matches the given URI"
    /\ page <> [].
Proof. apply (C1_sw_js_absent (env_of ∅)). reflexivity. Defined.

(** C1 as stated fails: in an empty working directory the reply to a GET of
    /sw.js is not one with status 404 and an empty body. The header block
    with status 200 has been flushed before the file is opened, so a client
    reads status 200 and, as body, the whole error reply. *)
Lemma C1_counterexample :
  let e := env_of ∅ in
  cwd e !! "sw.js" = None
  /\ ~ (exists r,
          response_of (reply e (MorningRoutineHandler.cls e) "GET" "/sw.js") = Some r
          /\ status r = 404 /\ body r = [])
  /\ (exists r,
          response_of (reply e (MorningRoutineHandler.cls e) "GET" "/sw.js") = Some r
          /\ status r = 200 /\ body r <> []).
Proof.
  assert (Hr : exists hs b bs,
    response_of (reply (env_of ∅) (MorningRoutineHandler.cls (env_of ∅)) "GET" "/sw.js")
    = Some {| status := 200; headers := hs; body := b :: bs |}).
  { vm_compute. eexists _, _, _. reflexivity. }
  destruct Hr as (hs & b & bs & Hr).
  split; [reflexivity|]. split.
  - intros (r & Hr' & Hs & _). rewrite Hr in Hr'. injection Hr' as <-. discriminate.
  - eexists. split; [exact Hr|]. split; [reflexivity|discriminate].
Qed.

(** ** The root path and the paths served by the static handler *)

(** C4. A GET of / is answered as a GET of /index.html is: the method
    rewrites the path first, so outcome, reply and the handler it leaves are
    the same. *)
Theorem C4_root_is_index (e : env) (h : handler) :
  MorningRoutineHandler.do_GET e (set_path "/" h)
    = MorningRoutineHandler.do_GET e (set_path "/index.html" h)
  /\ handle_one_request e (MorningRoutineHandler.cls e) (request "GET" "/")
     = handle_one_request e (MorningRoutineHandler.cls e) (request "GET" "/index.html")
  /\ response_of (reply e (MorningRoutineHandler.cls e) "GET" "/")
     = response_of (reply e (MorningRoutineHandler.cls e) "GET" "/index.html").
Proof.
  assert (Hdo : forall h',
    MorningRoutineHandler.do_GET e (set_path "/" h')
    = MorningRoutineHandler.do_GET e (set_path "/index.html" h')).
  { intros h'. rewrite do_GET_root by reflexivity.
    rewrite do_GET_default by (destruct h'; discriminate).
    now destruct h'. }
  assert (Hreq : handle_one_request e (MorningRoutineHandler.cls e) (request "GET" "/")
    = handle_one_request e (MorningRoutineHandler.cls e) (request "GET" "/index.html")).
  { rewrite !handle_GET by reflexivity. exact (Hdo (request "GET" "/")). }
  split; [apply Hdo|]. split; [exact Hreq|].
  unfold reply. now rewrite Hreq.
Qed.

(** C9. The hand-written replies are for the request paths /sw.js and
    /manifest.json exactly. With any other path string, GET runs the static
    handler on the path (after the rewrite of /), and the extension header is
    chosen from that whole string: /sw.js?v=1 is served by the static handler
    and, as it does not end in .js, without extension header. *)
Theorem C9_exact_paths_only (e : env) (h : handler) :
  path h <> "/sw.js" -> path h <> "/manifest.json" ->
  let h' := if str_eq (path h) "/" then set_path "/index.html" h else h in
  let sr := lookup_static e (path h') in
  MorningRoutineHandler.do_GET e h
    = SimpleHTTPRequestHandler.do_GET e MorningRoutineHandler.end_headers h'
  /\ wfile (snd (MorningRoutineHandler.do_GET e h))
     = wfile h
       ++ Head (headers_buffer h ++ static_lines e sr ++ PWA_headers
                ++ content_type_override (path h') ++ [ BlankLine ])
          :: static_data true (command h) sr
  /\ (let sr1 := lookup_static e "/sw.js?v=1" in
      reply e (MorningRoutineHandler.cls e) "GET" "/sw.js?v=1"
      = Head (static_lines e sr1 ++ PWA_headers ++ [ BlankLine ])
          :: static_data true "GET" sr1).
Proof.
  intros Hsw Hmanifest h' sr.
  assert (Hdo : MorningRoutineHandler.do_GET e h = (Returned, static_reply e morning_tail true h')).
  { subst h'. unfold str_eq. case_bool_decide as Hroot.
    - now apply do_GET_root.
    - now apply do_GET_default. }
  split; [|split].
  - rewrite Hdo. symmetry. apply simple_do_GET_spec, morning_flushes.
  - rewrite Hdo. subst sr h'. unfold static_reply, emit, morning_tail, str_eq.
    case_bool_decide; destruct h; reflexivity.
  - intros sr1. unfold reply. rewrite handle_GET by reflexivity.
    cbn [do_GET_of MorningRoutineHandler.cls].
    rewrite do_GET_default by discriminate.
    unfold static_reply, emit, morning_tail, request. hsimpl.
    replace (content_type_override "/sw.js?v=1") with (@nil line)
      by (vm_compute; reflexivity).
    reflexivity.
Qed.

Lemma C9_exact_paths_only_witness :
  let e := env_of site in
  let h := request "GET" "/sw.js?v=1" in
  let h' := if str_eq (path h) "/" then set_path "/index.html" h else h in
  let sr := lookup_static e (path h') in
  MorningRoutineHandler.do_GET e h
    = SimpleHTTPRequestHandler.do_GET e MorningRoutineHandler.end_headers h'
  /\ wfile (snd (MorningRoutineHandler.do_GET e h))
     = wfile h
       ++ Head (headers_buffer h ++ static_lines e sr ++ PWA_headers
                ++ content_type_override (path h') ++ [ BlankLine ])
          :: static_data true (command h) sr
  /\ (let sr1 := lookup_static e "/sw.js?v=1" in
      reply e (MorningRoutineHandler.cls e) "GET" "/sw.js?v=1"
      = Head (static_lines e sr1 ++ PWA_headers ++ [ BlankLine ])
          :: static_data true "GET" sr1).
Proof.
  apply (C9_exact_paths_only (env_of site) (request "GET" "/sw.js?v=1"));
    vm_compute; discriminate.
Defined.

Lemma content_type_override_app_js :
  content_type_override "/app.js" = [ HeaderLine "Content-Type" "application/javascript" ].
Proof. vm_compute. reflexivity. Qed.

Lemma static_lines_status e sr :
  exists code message ls,
    static_lines e sr = StatusLine "HTTP/1.0" code message :: ls.
Proof. destruct sr; eexists _, _, _; reflexivity. Qed.

(** C8. A GET of /app.js, which the static handler serves, is answered with
    a header Content-Type: application/javascript, whatever the static
    handler finds. *)
Theorem C8_app_js_content_type (e : env) :
  exists r,
    response_of (reply e (MorningRoutineHandler.cls e) "GET" "/app.js") = Some r
    /\ ("Content-Type", "application/javascript") ∈ headers r.
Proof.
  unfold reply. rewrite handle_GET by reflexivity.
  cbn [do_GET_of MorningRoutineHandler.cls].
  rewrite do_GET_default by discriminate.
  unfold static_reply, emit, morning_tail, request. hsimpl.
  rewrite content_type_override_app_js.
  destruct (static_lines_status e (lookup_static e "/app.js")) as (code & m & ls & ->).
  cbn [app response_of]. eexists. split; [reflexivity|]. cbn [headers].
  unfold header_fields. rewrite !omap_app. rewrite !elem_of_app.
  right. right. apply list_elem_of_here.
Qed.

(** ** Headers on every reply *)

Lemma decorated_tail ls p : decorated (ls ++ morning_tail p).
Proof. exists ls, (content_type_override p). reflexivity. Qed.

Lemma decorated_cons l ls : decorated ls -> decorated (l :: ls).
Proof. intros (pre & ext & ->). now exists (l :: pre), ext. Qed.

Lemma header_fields_app ls1 ls2 :
  header_fields (ls1 ++ ls2) = header_fields ls1 ++ header_fields ls2.
Proof. apply omap_app. Qed.

Lemma header_fields_tail p :
  [ ("Cache-Control", "no-cache");
    ("Access-Control-Allow-Origin", "*");
    ("Access-Control-Allow-Methods", "GET, POST, OPTIONS");
    ("Access-Control-Allow-Headers", "Content-Type") ]
  ⊆ header_fields (morning_tail p).
Proof.
  unfold morning_tail. rewrite header_fields_app.
  intros x Hx. apply elem_of_app. left. exact Hx.
Qed.

Lemma well_headed_block lines p rest :
  (exists v code m ls, lines = StatusLine v code m :: ls) ->
  Forall (fun c => forall ls, c = Head ls -> decorated ls) rest ->
  well_headed (Head (lines ++ morning_tail p) :: rest).
Proof.
  intros (v & code & m & ls & ->) Hrest. split.
  - eexists. split; [reflexivity|]. cbn [headers].
    rewrite header_fields_app. intros x Hx. apply elem_of_app. right.
    now apply header_fields_tail.
  - constructor; [|exact Hrest].
    intros ls' [= <-]. apply (decorated_tail (_ :: _)).
Qed.

Lemma status_first_response e code m ls :
  exists v code' m' ls', response_lines e code m ++ ls = StatusLine v code' m' :: ls'.
Proof. eexists _, _, _, _. reflexivity. Qed.

Lemma status_first_error e code m x :
  exists v code' m' ls', error_lines e code m x = StatusLine v code' m' :: ls'.
Proof. eexists _, _, _, _. reflexivity. Qed.

Lemma data_only_error cmd code m x :
  Forall (fun c => forall ls, c = Head ls -> decorated ls) (error_data cmd code m x).
Proof. unfold error_data. destruct (negb _); repeat constructor; discriminate. Qed.

Lemma data_only_static get cmd sr :
  Forall (fun c => forall ls, c = Head ls -> decorated ls) (static_data get cmd sr).
Proof.
  destruct sr, get; cbn [static_data]; try apply data_only_error;
    repeat constructor; discriminate.
Qed.

Lemma well_headed_static e get cmd p p' :
  well_headed (wfile (static_reply e morning_tail get (set_path p' (request cmd p)))).
Proof.
  unfold static_reply, emit, request. hsimpl.
  apply well_headed_block; [|apply data_only_static].
  destruct (static_lines_status e (lookup_static e p')) as (code & m & ls & ->).
  eexists _, _, _, _. reflexivity.
Qed.

Lemma well_headed_hand_written e ls name cmd p :
  well_headed (wfile (snd (hand_written e ls name (request cmd p)))).
Proof.
  unfold hand_written, emit, request.
  destruct (open_rb e name); hsimpl;
    (apply well_headed_block; [apply status_first_response|]).
  - repeat constructor; discriminate.
  - constructor; [|apply data_only_error].
    intros ls' [= <-]. do 6 apply decorated_cons. apply (decorated_tail []).
  - constructor.
Qed.

(** C5. Whatever the command, the path and the outcome, the reply starts
    with a header block that has the headers Cache-Control: no-cache,
    Access-Control-Allow-Origin: *, Access-Control-Allow-Methods: GET, POST,
    OPTIONS and Access-Control-Allow-Headers: Content-Type, and every header
    block written has these four before its end. *)
Theorem C5_pwa_headers_on_every_reply (e : env) (cmd p : string) :
  let w := reply e (MorningRoutineHandler.cls e) cmd p in
  (exists r,
     response_of w = Some r
     /\ [ ("Cache-Control", "no-cache");
          ("Access-Control-Allow-Origin", "*");
          ("Access-Control-Allow-Methods", "GET, POST, OPTIONS");
          ("Access-Control-Allow-Headers", "Content-Type") ] ⊆ headers r)
  /\ Forall (fun c => forall ls, c = Head ls ->
               exists pre ext, ls = pre ++ PWA_headers ++ ext ++ [ BlankLine ]) w.
Proof.
  cbv zeta. change (well_headed (reply e (MorningRoutineHandler.cls e) cmd p)).
  unfold reply.
  destruct (decide (cmd = "GET")) as [->|Hget].
  - rewrite handle_GET by reflexivity. cbn [do_GET_of MorningRoutineHandler.cls].
    destruct (decide (p = "/")) as [->|Hroot].
    { rewrite do_GET_root by reflexivity. apply well_headed_static. }
    destruct (decide (p = "/sw.js")) as [->|Hsw].
    { rewrite do_GET_sw by reflexivity. apply well_headed_hand_written. }
    destruct (decide (p = "/manifest.json")) as [->|Hmanifest].
    { rewrite do_GET_manifest by reflexivity. apply well_headed_hand_written. }
    rewrite do_GET_default by assumption.
    apply (well_headed_static e true "GET" p p).
  - destruct (decide (cmd = "HEAD")) as [->|Hhead].
    + rewrite handle_HEAD by reflexivity.
      cbn [do_HEAD_of MorningRoutineHandler.cls inherited].
      rewrite (simple_do_HEAD_spec e _ _ (morning_flushes)).
      apply (well_headed_static e false "HEAD" p p).
    + rewrite (handle_unsupported e _ morning_tail) by (assumption || apply morning_flushes).
      unfold emit, request. hsimpl.
      apply well_headed_block; [apply status_first_error|].
      repeat constructor; discriminate.
Qed.

(** ** Commands other than GET *)

Lemma removelast_snoc {A} (l : list A) (x : A) : removelast (l ++ [ x ]) = l.
Proof. apply removelast_last. Qed.

Lemma decorate_block ls p :
  decorate p (Head (ls ++ base_tail p)) = Head (ls ++ morning_tail p).
Proof. unfold decorate, base_tail, morning_tail. now rewrite removelast_snoc. Qed.

Lemma decorate_data p w :
  Forall (fun c => exists bs, c = Data bs) w -> map (decorate p) w = w.
Proof.
  induction 1 as [|c w (bs & ->) _ IH]; [reflexivity|].
  cbn [map decorate]. now rewrite IH.
Qed.

Lemma static_data_is_data get cmd sr :
  Forall (fun c => exists bs, c = Data bs) (static_data get cmd sr).
Proof.
  destruct sr, get; cbn [static_data]; unfold error_data;
    try destruct (negb _); repeat constructor; eexists; reflexivity.
Qed.

(** C10, amended. For a command other than GET the handler runs the methods
    of the static handler, with its own [end_headers] in place of the
    library's: the path is not rewritten, no hand-written reply is sent, and
    the reply is that of the library handler with the headers of
    [end_headers] added to its header block. *)
Theorem C10_other_commands_inherited (e : env) (h : handler) :
  command h <> "GET" ->
  handle_one_request e (MorningRoutineHandler.cls e) h
    = handle_one_request e (inherited e MorningRoutineHandler.end_headers) h
  /\ path (snd (handle_one_request e (MorningRoutineHandler.cls e) h)) = path h
  /\ reply e (MorningRoutineHandler.cls e) (command h) (path h)
     = map (decorate (path h))
         (reply e (SimpleHTTPRequestHandler_class e) (command h) (path h)).
Proof.
  intros Hget.
  assert (Hsame : forall h', command h' = command h ->
    handle_one_request e (MorningRoutineHandler.cls e) h'
    = handle_one_request e (inherited e MorningRoutineHandler.end_headers) h').
  { intros h' Hc. unfold handle_one_request, lookup_method, str_eq.
    rewrite Hc, (bool_decide_eq_false_2 _ Hget). reflexivity. }
  split; [now apply Hsame|]. split.
  - rewrite Hsame by reflexivity.
    destruct (decide (command h = "HEAD")) as [Hhead|Hhead].
    + rewrite handle_HEAD by assumption. cbn [do_HEAD_of inherited].
      now rewrite (simple_do_HEAD_spec e _ _ morning_flushes).
    + now rewrite (handle_unsupported e _ morning_tail)
        by (assumption || apply morning_flushes).
  - unfold reply, SimpleHTTPRequestHandler_class.
    rewrite Hsame by reflexivity.
    destruct (decide (command h = "HEAD")) as [Hhead|Hhead].
    + rewrite !handle_HEAD by (now rewrite Hhead). cbn [do_HEAD_of inherited].
      rewrite (simple_do_HEAD_spec e _ _ morning_flushes).
      rewrite (simple_do_HEAD_spec e _ _ (flushes_base)).
      unfold static_reply, emit, request. hsimpl.
      cbn [map]. rewrite decorate_block.
      now rewrite decorate_data by apply static_data_is_data.
    + rewrite (handle_unsupported e _ morning_tail)
        by (assumption || apply morning_flushes).
      rewrite (handle_unsupported e _ base_tail)
        by (assumption || apply flushes_base).
      unfold emit, request. hsimpl. cbn [map]. now rewrite decorate_block.
Qed.

Lemma C10_other_commands_inherited_witness :
  let e := env_of site in
  let h := request "HEAD" "/index.html" in
  handle_one_request e (MorningRoutineHandler.cls e) h
    = handle_one_request e (inherited e MorningRoutineHandler.end_headers) h
  /\ path (snd (handle_one_request e (MorningRoutineHandler.cls e) h)) = path h
  /\ reply e (MorningRoutineHandler.cls e) (command h) (path h)
     = map (decorate (path h))
         (reply e (SimpleHTTPRequestHandler_class e) (command h) (path h)).
Proof.
  apply (C10_other_commands_inherited (env_of site) (request "HEAD" "/index.html")).
  vm_compute. discriminate.
Defined.

(** C10 as stated fails: the reply to HEAD /index.html is not that of the
    library's static handler, which sends none of the headers that
    [end_headers] adds. *)
Lemma C10_counterexample :
  let e := env_of site in
  "HEAD" <> "GET"
  /\ handle_one_request e (MorningRoutineHandler.cls e) (request "HEAD" "/index.html")
     <> handle_one_request e (SimpleHTTPRequestHandler_class e) (request "HEAD" "/index.html")
  /\ response_of (reply e (MorningRoutineHandler.cls e) "HEAD" "/index.html")
     <> response_of (reply e (SimpleHTTPRequestHandler_class e) "HEAD" "/index.html").
Proof.
  cbv zeta. split; [discriminate|]. split; vm_compute; discriminate.
Qed.

(** ** Start-up *)

Lemma exists_false m f : exists_ m f = false <-> m !! f = None.
Proof.
  unfold exists_. rewrite bool_decide_eq_false, <- eq_None_not_Some. reflexivity.
Qed.

(** C6. When required files are missing, [main] prints the heading, one line
    for each missing file (the required files absent from the working
    directory, and no others), and the closing advice; it does not bind the
    port and returns. *)
Theorem C6_missing_files_reported (m : host) :
  missing_files (directory m) <> [] ->
  main m
    = ([ Print "❌ Missing required files:" ]
         ++ map (fun file => Print ("   - " +:+ file)) (missing_files (directory m))
         ++ [ Print (NL +:+ "Please ensure all files are in the current directory.") ],
       MainReturns)
  /\ (forall f,
        f ∈ missing_files (directory m)
        <-> f ∈ required_files /\ directory m !! f = None)
  /\ (forall port, Bind port ∉ fst (main m)).
Proof.
  intros Hmissing.
  assert (Hmain : main m
    = ([ Print "❌ Missing required files:" ]
         ++ map (fun file => Print ("   - " +:+ file)) (missing_files (directory m))
         ++ [ Print (NL +:+ "Please ensure all files are in the current directory.") ],
       MainReturns)).
  { unfold main. now rewrite (bool_decide_eq_false_2 _ Hmissing). }
  split; [exact Hmain|]. split.
  - intros f. unfold missing_files. rewrite list_elem_of_filter, exists_false. tauto.
  - intros port. rewrite Hmain. cbn [fst].
    rewrite !not_elem_of_app. repeat split.
    + intros Hin. apply list_elem_of_singleton in Hin. discriminate.
    + intros Hin. apply list_elem_of_In, in_map_iff in Hin as (f & Hf & _). discriminate.
    + intros Hin. apply list_elem_of_singleton in Hin. discriminate.
Qed.

Lemma C6_missing_files_reported_witness :
  let m := host_of (delete "sw.js" (delete "styles.css" site)) in
  main m
    = ([ Print "❌ Missing required files:" ]
         ++ map (fun file => Print ("   - " +:+ file)) (missing_files (directory m))
         ++ [ Print (NL +:+ "Please ensure all files are in the current directory.") ],
       MainReturns)
  /\ (forall f,
        f ∈ missing_files (directory m)
        <-> f ∈ required_files /\ directory m !! f = None)
  /\ (forall port, Bind port ∉ fst (main m)).
Proof.
  apply (C6_missing_files_reported (host_of (delete "sw.js" (delete "styles.css" site)))).
  vm_compute. discriminate.
Defined.

Example main_two_files_missing :
  main (host_of (delete "sw.js" (delete "styles.css" site)))
  = ([ Print "❌ Missing required files:";
       Print "   - styles.css";
       Print "   - sw.js";
       Print (NL +:+ "Please ensure all files are in the current directory.") ],
     MainReturns).
Proof. vm_compute. reflexivity. Qed.

(** The [except OSError] clause prints the advice about the port exactly for
    [errno] 48. *)
Lemma advice_iff_errno_48 err :
  Print "Try closing other applications or use a different port." ∈ on_os_error err
  <-> errno err = 48.
Proof.
  unfold on_os_error. case_bool_decide as H; split; try (intros; assumption).
  - intros _. apply list_elem_of_further, list_elem_of_here.
  - intros Hin. apply list_elem_of_singleton in Hin. discriminate.
  - intros. contradiction.
Qed.

Example main_port_in_use_on_macos :
  snd (main {| directory := site; bind := BindFails macos_address_in_use;
               browser := BrowserReturns; serve := ServesForever |}) = MainReturns
  /\ (Print "Try closing other applications or use a different port."
      ∈ fst (main {| directory := site; bind := BindFails macos_address_in_use;
                     browser := BrowserReturns; serve := ServesForever |})).
Proof.
  split; [reflexivity|]. apply list_elem_of_In. vm_compute. tauto.
Qed.

(** C3 on Linux, where a port in use is [OSError] 98: with all files present
    and port 8000 taken, [main] reports the error text of the system and
    returns, without the advice to close other applications or use another
    port, which it gives for [errno] 48 only. *)
Theorem C3_port_in_use_on_linux :
  let m := {| directory := site; bind := BindFails linux_address_in_use;
              browser := BrowserReturns; serve := ServesForever |} in
  main m
    = ([ Print "⚠️  Warning: 'icons' directory not found. PWA icons may not load properly." ]
         ++ banner ++ [ Bind 8000 ]
         ++ [ Print "❌ Error starting server: [Errno 98] Address already in use" ],
       MainReturns)
  /\ (Print "Try closing other applications or use a different port." ∉ fst (main m))
  /\ (forall err,
        Print "Try closing other applications or use a different port." ∈ on_os_error err
        <-> errno err = 48).
Proof.
  cbv zeta.
  assert (Hmain : main {| directory := site; bind := BindFails linux_address_in_use;
                          browser := BrowserReturns; serve := ServesForever |}
    = ([ Print "⚠️  Warning: 'icons' directory not found. PWA icons may not load properly." ]
         ++ banner ++ [ Bind 8000 ]
         ++ [ Print "❌ Error starting server: [Errno 98] Address already in use" ],
       MainReturns)) by (vm_compute; reflexivity).
  split; [exact Hmain|]. split; [|exact advice_iff_errno_48].
  rewrite Hmain. cbn [fst]. intros Hin.
  apply list_elem_of_In in Hin. revert Hin. vm_compute.
  intuition discriminate.
Qed.

(** * Further properties of [main] *)

Lemma main_when_present m :
  missing_files (directory m) = [] ->
  main m =
  let started := icons_warning (directory m) ++ banner ++ [ Bind PORT ] in
  match bind m with
  | BindFails err => (started ++ on_os_error err, MainReturns)
  | Bound =>
      match serve m with
      | ServesForever => (started ++ after_bind (browser m), MainServes)
      | KeyboardInterrupt =>
          (started ++ after_bind (browser m) ++ [ ServerClose ] ++ on_keyboard_interrupt,
           MainReturns)
      | ServeFails err =>
          (started ++ after_bind (browser m) ++ [ ServerClose ] ++ on_os_error err,
           MainReturns)
      end
  end.
Proof.
  intros H. unfold main, icons_warning, after_bind. rewrite H.
  rewrite bool_decide_eq_true_2 by reflexivity. cbn [negb].
  destruct (bind m), (serve m); cbv zeta; rewrite <- ?app_assoc; reflexivity.
Qed.

Lemma main_when_missing m :
  missing_files (directory m) <> [] ->
  main m
  = ([ Print "❌ Missing required files:" ]
       ++ map (fun file => Print ("   - " +:+ file)) (missing_files (directory m))
       ++ [ Print (NL +:+ "Please ensure all files are in the current directory.") ],
     MainReturns).
Proof. intros H. unfold main. now rewrite (bool_decide_eq_false_2 _ H). Qed.

(** Lists of prints. *)
Lemma prints_banner : Forall (fun ev => is_print ev = true) banner.
Proof. repeat constructor. Qed.

Lemma prints_on_os_error err : Forall (fun ev => is_print ev = true) (on_os_error err).
Proof. unfold on_os_error. case_bool_decide; repeat constructor. Qed.

Lemma prints_on_keyboard_interrupt :
  Forall (fun ev => is_print ev = true) on_keyboard_interrupt.
Proof. repeat constructor. Qed.

Lemma prints_icons_warning d : Forall (fun ev => is_print ev = true) (icons_warning d).
Proof. unfold icons_warning. destruct (negb _); repeat constructor. Qed.

Lemma prints_map_print (f : string -> string) l :
  Forall (fun ev => is_print ev = true) (map (fun x => Print (f x)) l).
Proof. induction l; constructor; auto. Qed.

Lemma notin_prints ev l :
  Forall (fun x => is_print x = true) l -> is_print ev = false -> ev ∉ l.
Proof.
  intros Hl Hev Hin. rewrite Forall_forall in Hl.
  specialize (Hl _ Hin). congruence.
Qed.

Lemma filter_bind_prints l :
  Forall (fun x => is_print x = true) l -> filter (fun ev => is_bind ev = true) l = [].
Proof.
  induction 1 as [|ev l Hev _ IH]; [reflexivity|].
  rewrite filter_cons, IH. destruct ev; try discriminate. reflexivity.
Qed.

Lemma prints_missing_report m :
  missing_files (directory m) <> [] ->
  Forall (fun ev => is_print ev = true) (fst (main m)).
Proof.
  intros H. rewrite main_when_missing by assumption. cbn [fst].
  repeat apply Forall_app_2; try apply prints_map_print; repeat constructor.
Qed.

Lemma no_bind_prints l :
  Forall (fun ev => is_print ev = true) l -> Forall (fun ev => is_bind ev = false) l.
Proof. intros H. eapply Forall_impl; [exact H|]. now intros []. Qed.

Lemma no_bind_after_bind b : Forall (fun ev => is_bind ev = false) (after_bind b).
Proof. destruct b; repeat constructor. Qed.

(** With all files present the trace is prints, the bind, and events that
    are not binds. *)
Lemma main_present_shape m :
  missing_files (directory m) = [] ->
  exists rest,
    fst (main m) = (icons_warning (directory m) ++ banner) ++ Bind PORT :: rest
    /\ Forall (fun ev => is_bind ev = false) rest.
Proof.
  intros Hm. rewrite main_when_present by assumption. cbv zeta.
  destruct (bind m) as [|err]; [destruct (serve m) as [| |err]|]; cbn [fst];
    eexists; (split; [rewrite <- !app_assoc; cbn [app]; reflexivity|]);
    repeat first
      [ apply no_bind_after_bind
      | apply no_bind_prints, prints_on_os_error
      | apply no_bind_prints, prints_on_keyboard_interrupt
      | apply Forall_app_2
      | apply Forall_cons_2; [reflexivity|]
      | apply Forall_nil_2 ].
Qed.

Lemma bind_in_trace_when_present m :
  missing_files (directory m) = [] -> Bind 8000 ∈ fst (main m).
Proof.
  intros Hm. destruct (main_present_shape m Hm) as (rest & -> & _).
  apply elem_of_app. right. left.
Qed.

(** X1. [main] constructs the server at most once, on port 8000 only, and
    exactly when no required file is missing. *)
Theorem main_binds_port_8000 (m : host) (port : nat) :
  (Bind port ∈ fst (main m)
   <-> port = 8000 /\ missing_files (directory m) = [])
  /\ length (filter (fun ev => is_bind ev = true) (fst (main m)))
     = (if decide (missing_files (directory m) = []) then 1 else 0).
Proof.
  destruct (decide (missing_files (directory m) = [])) as [Hm|Hm].
  - destruct (main_present_shape m Hm) as (rest & -> & Hrest).
    assert (Hpre : Forall (fun ev => is_print ev = true)
                     (icons_warning (directory m) ++ banner)).
    { apply Forall_app_2; [apply prints_icons_warning|apply prints_banner]. }
    split.
    + rewrite elem_of_app, elem_of_cons. split.
      * intros [Hin|[Heq|Hin]].
        -- exfalso. revert Hin. now apply notin_prints.
        -- split; [now injection Heq|assumption].
        -- exfalso. rewrite Forall_forall in Hrest.
           specialize (Hrest _ Hin). discriminate.
      * intros [-> _]. right. left. reflexivity.
    + rewrite filter_app, (filter_bind_prints _ Hpre), filter_cons.
      cbn [is_bind app]. rewrite decide_True by reflexivity. cbn [length].
      f_equal. apply length_zero_iff_nil.
      clear -Hrest. induction Hrest as [|ev l Hev _ IH]; [reflexivity|].
      rewrite filter_cons, IH. now rewrite decide_False by congruence.
  - split.
    + split; [|intros [_ H]; contradiction].
      intros H. exfalso. revert H. apply notin_prints; [|reflexivity].
      now apply prints_missing_report.
    + now rewrite (filter_bind_prints _ (prints_missing_report _ Hm)).
Qed.

(** The events of [main] other than prints. *)
Lemma nonprint_in_main m ev :
  is_print ev = false ->
  ev ∈ fst (main m)
  <-> missing_files (directory m) = []
      /\ (ev = Bind PORT
          \/ bind m = Bound
             /\ (ev ∈ after_bind (browser m)
                 \/ ev = ServerClose /\ serve m <> ServesForever)).
Proof.
  intros Hev.
  assert (Hno : forall l, Forall (fun x => is_print x = true) l -> ev ∈ l <-> False).
  { intros l Hl. split; [|contradiction]. now apply notin_prints. }
  destruct (decide (missing_files (directory m) = [])) as [Hm|Hm].
  - rewrite main_when_present by assumption. cbv zeta.
    destruct (bind m) as [|err]; [destruct (serve m) as [| |err]|]; cbn [fst];
      rewrite ?elem_of_app, ?list_elem_of_singleton,
        ?(Hno _ (prints_icons_warning _)), ?(Hno _ prints_banner),
        ?(Hno _ (prints_on_os_error _)), ?(Hno _ prints_on_keyboard_interrupt);
      intuition congruence.
  - split; [|intros [H _]; contradiction].
    intros H. exfalso. revert H. apply notin_prints; [|assumption].
    now apply prints_missing_report.
Qed.

Lemma localhost_url : "http://localhost:" +:+ str PORT = "http://localhost:8000".
Proof. vm_compute. reflexivity. Qed.

Lemma open_browser_after_bind b url :
  OpenBrowser url ∈ after_bind b <-> url = "http://localhost:8000".
Proof.
  unfold after_bind. rewrite localhost_url, list_elem_of_In. split.
  - intros H. apply in_app_or in H as [H|H].
    + destruct H as [H|[H|[H|[]]]]; try discriminate. now injection H.
    + destruct b; destruct H as [H|[H|[]]]; discriminate.
  - intros ->. apply in_or_app. left. right. right. now left.
Qed.

Lemma serve_forever_after_bind b : ServeForever ∈ after_bind b.
Proof.
  unfold after_bind. rewrite !elem_of_app. right. right.
  now apply list_elem_of_singleton.
Qed.

Lemma server_close_after_bind b : ServerClose ∉ after_bind b.
Proof.
  intros H. apply list_elem_of_In in H. destruct b; cbn in H; intuition discriminate.
Qed.

(** X2. [main] opens the browser and enters the serve loop exactly when no
    required file is missing and the bind succeeds; the browser is pointed at
    http://localhost:8000, and whether it could be opened makes no
    difference to serving. *)
Theorem main_opens_browser_and_serves (m : host) :
  (forall url,
     OpenBrowser url ∈ fst (main m)
     <-> url = "http://localhost:8000"
         /\ missing_files (directory m) = [] /\ bind m = Bound)
  /\ (ServeForever ∈ fst (main m)
      <-> missing_files (directory m) = [] /\ bind m = Bound).
Proof.
  split.
  - intros url. rewrite nonprint_in_main by reflexivity.
    rewrite open_browser_after_bind. intuition (try discriminate; auto).
  - rewrite nonprint_in_main by reflexivity.
    pose proof (serve_forever_after_bind (browser m)).
    intuition (try discriminate; auto).
Qed.

(** X3. The server is closed exactly when the serve loop has been entered
    and left, by an interrupt or an [OSError]; and [main] returns to its
    caller unless it stays in the serve loop. *)
Theorem main_closes_server_and_returns (m : host) :
  (ServerClose ∈ fst (main m)
   <-> missing_files (directory m) = [] /\ bind m = Bound /\ serve m <> ServesForever)
  /\ (snd (main m) = MainServes
      <-> missing_files (directory m) = [] /\ bind m = Bound /\ serve m = ServesForever).
Proof.
  split.
  - rewrite nonprint_in_main by reflexivity.
    pose proof (server_close_after_bind (browser m)).
    intuition (try discriminate; auto).
  - destruct (decide (missing_files (directory m) = [])) as [Hm|Hm].
    + rewrite main_when_present by assumption. cbv zeta.
      destruct (bind m), (serve m); cbn [snd]; intuition (try discriminate; auto).
    + rewrite main_when_missing by assumption. cbn [snd].
      intuition (try discriminate; auto).
Qed.

(** Membership in the trace of [main], segment by segment. *)
Lemma in_main_present m ev :
  missing_files (directory m) = [] ->
  ev ∈ fst (main m)
  <-> ev ∈ icons_warning (directory m) \/ ev ∈ banner \/ ev = Bind PORT
      \/ (exists err, bind m = BindFails err /\ ev ∈ on_os_error err)
      \/ bind m = Bound
         /\ (ev ∈ after_bind (browser m)
             \/ serve m <> ServesForever /\ ev = ServerClose
             \/ serve m = KeyboardInterrupt /\ ev ∈ on_keyboard_interrupt
             \/ exists err, serve m = ServeFails err /\ ev ∈ on_os_error err).
Proof.
  intros Hm. rewrite main_when_present by assumption. cbv zeta.
  destruct (bind m) as [|err]; [destruct (serve m) as [| |err]|]; cbn [fst];
    rewrite ?elem_of_app, ?list_elem_of_singleton; split; intros H;
    repeat match goal with
           | H : _ \/ _ |- _ => destruct H as [H|H]
           | H : _ /\ _ |- _ => destruct H as [? H]
           | H : exists _, _ |- _ => destruct H as [? H]
           | H : ?x = ?y |- _ => first [discriminate H | injection H as <-]
           end;
    try contradiction; eauto 12.
Qed.

Ltac not_among :=
  let H := fresh in
  intros H; apply list_elem_of_In in H; vm_compute in H; intuition discriminate.

(** X4. The warning about the icons directory is printed exactly when no
    required file is missing and the working directory has no entry named
    icons; it does not keep [main] from constructing the server, which
    happens in the same runs. *)
Theorem main_warns_about_icons (m : host) :
  let warning :=
    Print "⚠️  Warning: 'icons' directory not found. PWA icons may not load properly." in
  (warning ∈ fst (main m)
   <-> missing_files (directory m) = [] /\ directory m !! "icons" = None)
  /\ (warning ∈ fst (main m) /\ Bind 8000 ∈ fst (main m)
      <-> missing_files (directory m) = [] /\ directory m !! "icons" = None).
Proof.
  cbv zeta.
  assert (Hiff : Print "⚠️  Warning: 'icons' directory not found. PWA icons may not load properly."
                   ∈ fst (main m)
                 <-> missing_files (directory m) = [] /\ directory m !! "icons" = None).
  { destruct (decide (missing_files (directory m) = [])) as [Hm|Hm].
    - rewrite in_main_present by assumption.
      assert (Hw : Print "⚠️  Warning: 'icons' directory not found. PWA icons may not load properly."
                     ∈ icons_warning (directory m)
                   <-> directory m !! "icons" = None).
      { unfold icons_warning. rewrite <- exists_false.
        destruct (exists_ (directory m) "icons"); cbn [negb].
        - split; [|discriminate]. intros H. now apply elem_of_nil in H.
        - split; [reflexivity|]. intros _. now apply list_elem_of_singleton. }
      rewrite Hw. split; [|tauto].
      intros [H|[H|[H|[(err & _ & H)|(_ & [H|[[_ H]|[[_ H]|(err & _ & H)]]])]]]];
        try discriminate; try (split; assumption); exfalso; revert H.
      + not_among.
      + unfold on_os_error. case_bool_decide; not_among.
      + destruct (browser m); not_among.
      + not_among.
      + unfold on_os_error. case_bool_decide; not_among.
    - split; [|intros [H _]; contradiction].
      rewrite main_when_missing by assumption. cbn [fst].
      rewrite !elem_of_app, !list_elem_of_singleton, list_elem_of_In, in_map_iff.
      intros [H|[(f & H & _)|H]]; discriminate. }
  split; [exact Hiff|]. rewrite Hiff. split; [tauto|].
  intros [Hm Hicons]. split; [now split|].
  apply (bind_in_trace_when_present m Hm).
Qed.

(** X5. An [OSError] other than number 48, from the bind or from the serve
    loop, is caught: the last thing [main] prints is the error with the text
    of the exception, and [main] returns. *)
Theorem main_reports_os_error (m : host) (err : os_error) :
  missing_files (directory m) = [] ->
  bind m = BindFails err \/ (bind m = Bound /\ serve m = ServeFails err) ->
  errno err <> 48 ->
  last (fst (main m))
    = Some (Print ("❌ Error starting server: [Errno " +:+ str (errno err) +:+ "] "
                   +:+ strerror err))
  /\ snd (main m) = MainReturns.
Proof.
  intros Hm Hfail Herrno. rewrite main_when_present by assumption. cbv zeta.
  assert (Hlast : forall pre, last (pre ++ on_os_error err)
            = Some (Print ("❌ Error starting server: [Errno " +:+ str (errno err) +:+ "] "
                           +:+ strerror err))).
  { intros pre. unfold on_os_error. rewrite (bool_decide_eq_false_2 _ Herrno).
    now rewrite last_snoc. }
  destruct Hfail as [->|[-> ->]]; cbn [fst snd]; (split; [|reflexivity]).
  - apply Hlast.
  - rewrite !app_assoc. apply Hlast.
Qed.

Lemma main_reports_os_error_witness :
  let m := {| directory := site; bind := BindFails linux_address_in_use;
              browser := BrowserReturns; serve := ServesForever |} in
  last (fst (main m))
    = Some (Print ("❌ Error starting server: [Errno " +:+ str 98 +:+ "] "
                   +:+ "Address already in use"))
  /\ snd (main m) = MainReturns.
Proof.
  apply (main_reports_os_error
           {| directory := site; bind := BindFails linux_address_in_use;
              browser := BrowserReturns; serve := ServesForever |}
           linux_address_in_use).
  - vm_compute. reflexivity.
  - left. reflexivity.
  - vm_compute. discriminate.
Defined.

(** X6. An interrupt of the serve loop ends [main] in order: the server is
    closed, the two farewell lines are printed, and [main] returns. *)
Theorem main_stops_on_interrupt (m : host) :
  missing_files (directory m) = [] ->
  bind m = Bound ->
  serve m = KeyboardInterrupt ->
  exists before,
    fst (main m)
    = before
      ++ [ ServeForever; ServerClose;
           Print (NL +:+ NL +:+ "🛑 Server stopped by user");
           Print "Thanks for using Morning Routine Tracker! 🌅" ]
    /\ snd (main m) = MainReturns.
Proof.
  intros Hm Hb Hs. rewrite main_when_present by assumption. cbv zeta.
  rewrite Hb, Hs. cbn [fst snd]. unfold after_bind, on_keyboard_interrupt.
  eexists. split; [|reflexivity].
  rewrite !app_assoc. rewrite <- (app_assoc _ [ ServeForever ]).
  rewrite <- (app_assoc _ ([ ServeForever ] ++ [ ServerClose ])). reflexivity.
Qed.

Lemma main_stops_on_interrupt_witness :
  exists before,
    fst (main (host_of site))
    = before
      ++ [ ServeForever; ServerClose;
           Print (NL +:+ NL +:+ "🛑 Server stopped by user");
           Print "Thanks for using Morning Routine Tracker! 🌅" ]
    /\ snd (main (host_of site)) = MainReturns.
Proof.
  apply (main_stops_on_interrupt (host_of site)); vm_compute; reflexivity.
Defined.

(** X7. The missing files are the required files that have no entry in the
    working directory, in the order of the list of required files and each at
    most once; there are none exactly when all five names have an entry, be
    it a file or a directory. *)
Theorem missing_files_of_required (d : gmap string node) :
  sublist (missing_files d) required_files
  /\ NoDup (missing_files d)
  /\ (forall f, f ∈ missing_files d <-> f ∈ required_files /\ d !! f = None)
  /\ (missing_files d = [] <-> Forall (fun f => is_Some (d !! f)) required_files).
Proof.
  assert (Hin : forall f, f ∈ missing_files d <-> f ∈ required_files /\ d !! f = None).
  { intros f. unfold missing_files. rewrite list_elem_of_filter, exists_false. tauto. }
  assert (Hsub : sublist (missing_files d) required_files) by apply sublist_filter.
  split; [exact Hsub|]. split; [|split; [exact Hin|]].
  - eapply sublist_NoDup; [|exact Hsub].
    apply (bool_decide_unpack (NoDup required_files)). vm_compute. exact I.
  - rewrite Forall_forall. split.
    + intros Hnil f Hf. destruct (d !! f) eqn:Hd; [eauto|].
      exfalso. assert (H : f ∈ missing_files d) by now apply Hin.
      rewrite Hnil in H. now apply elem_of_nil in H.
    + intros Hall. destruct (missing_files d) as [|f l] eqn:Hl; [reflexivity|].
      exfalso. assert (H : f ∈ f :: l) by left.
      apply Hin in H as [Hf Hd]. destruct (Hall f Hf) as [x Hx]. congruence.
Qed.

(** X8. When the browser cannot be opened, [main] prints the request to
    open the address by hand, in which the port is not filled in, instead of
    the line about opening the browser, and serves all the same. *)
Theorem main_browser_failure (m : host) :
  missing_files (directory m) = [] ->
  bind m = Bound ->
  browser m = BrowserRaises ->
  (Print "🔍 Please manually open http://localhost:{PORT} in your browser" ∈ fst (main m))
  /\ (Print "🚀 Opening browser automatically..." ∉ fst (main m))
  /\ (ServeForever ∈ fst (main m)).
Proof.
  intros Hm Hb Hbr. rewrite !in_main_present by assumption. rewrite Hb, Hbr.
  split; [|split].
  - right. right. right. right. split; [reflexivity|]. left.
    apply list_elem_of_In. vm_compute. tauto.
  - intros [H|[H|[H|[(err & ? & _)|(_ & [H|[[_ H]|[[_ H]|(err & _ & H)]]])]]]];
      try discriminate; revert H.
    + unfold icons_warning. destruct (negb _); not_among.
    + not_among.
    + not_among.
    + not_among.
    + unfold on_os_error. case_bool_decide; not_among.
  - right. right. right. right. split; [reflexivity|]. left.
    apply serve_forever_after_bind.
Qed.

Lemma main_browser_failure_witness :
  let m := {| directory := site; bind := Bound; browser := BrowserRaises;
              serve := ServesForever |} in
  (Print "🔍 Please manually open http://localhost:{PORT} in your browser" ∈ fst (main m))
  /\ (Print "🚀 Opening browser automatically..." ∉ fst (main m))
  /\ (ServeForever ∈ fst (main m)).
Proof.
  apply (main_browser_failure
           {| directory := site; bind := Bound; browser := BrowserRaises;
              serve := ServesForever |});
    vm_compute; reflexivity.
Defined.

(** * Further properties of the request handler *)

Lemma handle_morning e h :
  handle_one_request e (MorningRoutineHandler.cls e) h = morning_reply e h.
Proof.
  unfold morning_reply, str_eq.
  destruct (decide (command h = "GET")) as [Hget|Hget].
  - rewrite handle_GET by assumption. cbn [do_GET_of MorningRoutineHandler.cls].
    rewrite (bool_decide_eq_true_2 _ Hget).
    case_bool_decide as H1; [now apply do_GET_root|].
    case_bool_decide as H2; [now apply do_GET_sw|].
    case_bool_decide as H3; [now apply do_GET_manifest|].
    now apply do_GET_default.
  - rewrite (bool_decide_eq_false_2 _ Hget).
    case_bool_decide as Hhead.
    + rewrite handle_HEAD by assumption.
      cbn [do_HEAD_of MorningRoutineHandler.cls inherited].
      apply simple_do_HEAD_spec, morning_flushes.
    + now apply (handle_unsupported e _ morning_tail); [apply morning_flushes| |].
Qed.

Lemma hand_written_path_cases p name ls :
  (p, name, ls) ∈ hand_written_paths ->
  (p = "/sw.js" /\ name = "sw.js"
   /\ ls = [ HeaderLine "Content-Type" "application/javascript";
             HeaderLine "Service-Worker-Allowed" "/" ])
  \/ (p = "/manifest.json" /\ name = "manifest.json"
      /\ ls = [ HeaderLine "Content-Type" "application/manifest+json" ]).
Proof.
  unfold hand_written_paths. rewrite !elem_of_cons, elem_of_nil.
  intros [[= -> -> ->]|[[= -> -> ->]|[]]]; auto.
Qed.

Lemma handle_hand_written e p name ls :
  (p, name, ls) ∈ hand_written_paths ->
  handle_one_request e (MorningRoutineHandler.cls e) (request "GET" p)
  = hand_written e ls name (request "GET" p).
Proof.
  intros H. rewrite handle_morning.
  apply hand_written_path_cases in H as [(-> & -> & ->)|(-> & -> & ->)]; reflexivity.
Qed.

(** X9. When the file of a hand-written path is absent, the header block
    with status 200 has already been written: a client reads status 200 and,
    as body, the error reply for 404 (its header block and its page); the
    connection is marked to be closed. *)
Theorem absent_file_is_answered_200 (e : env) (p name : string) (ls : list line) :
  (p, name, ls) ∈ hand_written_paths ->
  cwd e !! name = None ->
  exists r,
    response_of (reply e (MorningRoutineHandler.cls e) "GET" p) = Some r
    /\ status r = 200
    /\ body r
       = render [ Head (error_lines e 404 "Not Found" "Nothing matches the given URI"
                        ++ PWA_headers ++ content_type_override p ++ [ BlankLine ]);
                  Data (error_page 404 "Not Found" "Nothing matches the given URI") ]
    /\ body r <> []
    /\ close_connection
         (snd (handle_one_request e (MorningRoutineHandler.cls e) (request "GET" p)))
       = true.
Proof.
  intros Hp Habsent. unfold reply. rewrite (handle_hand_written e p name ls Hp).
  unfold hand_written, open_rb. rewrite Habsent.
  unfold emit, request, error_data, morning_tail. hsimpl.
  change (str_eq "GET" "HEAD") with false. cbn [negb].
  eexists. split; [reflexivity|]. cbn [status body].
  split; [reflexivity|]. split; [reflexivity|]. split; [|reflexivity].
  unfold render, error_lines. cbn [map render_chunk app concat render_line].
  discriminate.
Qed.

Lemma absent_file_is_answered_200_witness :
  exists r,
    response_of (reply (env_of ∅) (MorningRoutineHandler.cls (env_of ∅)) "GET"
                   "/manifest.json") = Some r
    /\ status r = 200
    /\ body r
       = render [ Head (error_lines (env_of ∅) 404 "Not Found" "Nothing matches the given URI"
                        ++ PWA_headers ++ content_type_override "/manifest.json"
                        ++ [ BlankLine ]);
                  Data (error_page 404 "Not Found" "Nothing matches the given URI") ]
    /\ body r <> []
    /\ close_connection
         (snd (handle_one_request (env_of ∅) (MorningRoutineHandler.cls (env_of ∅))
                 (request "GET" "/manifest.json")))
       = true.
Proof.
  apply (absent_file_is_answered_200 (env_of ∅) "/manifest.json" "manifest.json"
           [ HeaderLine "Content-Type" "application/manifest+json" ]).
  - apply list_elem_of_further, list_elem_of_here.
  - reflexivity.
Defined.

(** X10. When the name of a hand-written path is a directory, opening it
    raises [IsADirectoryError], which the method does not catch: the
    exception leaves [do_GET] after the header block with status 200 has been
    written, and nothing follows it. *)
Theorem directory_raises_after_headers (e : env) (p name : string) (ls : list line) :
  (p, name, ls) ∈ hand_written_paths ->
  cwd e !! name = Some Dir ->
  exists h',
    handle_one_request e (MorningRoutineHandler.cls e) (request "GET" p)
      = (Raised "IsADirectoryError", h')
    /\ wfile h'
       = [ Head (StatusLine "HTTP/1.0" 200 "OK"
                 :: HeaderLine "Server" (version_string e)
                 :: HeaderLine "Date" (date_time_string e)
                 :: ls ++ PWA_headers ++ content_type_override p ++ [ BlankLine ]) ].
Proof.
  intros Hp Hdir. rewrite (handle_hand_written e p name ls Hp).
  unfold hand_written, open_rb. rewrite Hdir.
  eexists. split; [reflexivity|].
  unfold emit, request, morning_tail, response_lines. hsimpl. reflexivity.
Qed.

Lemma directory_raises_after_headers_witness :
  let e := env_of (<[ "sw.js" := Dir ]> site) in
  exists h',
    handle_one_request e (MorningRoutineHandler.cls e) (request "GET" "/sw.js")
      = (Raised "IsADirectoryError", h')
    /\ wfile h'
       = [ Head (StatusLine "HTTP/1.0" 200 "OK"
                 :: HeaderLine "Server" (version_string e)
                 :: HeaderLine "Date" (date_time_string e)
                 :: [ HeaderLine "Content-Type" "application/javascript";
                      HeaderLine "Service-Worker-Allowed" "/" ]
                    ++ PWA_headers ++ content_type_override "/sw.js" ++ [ BlankLine ]) ].
Proof.
  apply (directory_raises_after_headers (env_of (<[ "sw.js" := Dir ]> site))
           "/sw.js" "sw.js").
  - apply list_elem_of_here.
  - vm_compute. reflexivity.
Defined.

Lemma static_lines_code e sr :
  exists code message ls,
    static_lines e sr = StatusLine "HTTP/1.0" code message :: ls
    /\ code ∈ [ 200; 301; 304; 404 ].
Proof.
  destruct sr; eexists _, _, _; (split; [reflexivity|]);
    repeat first [apply list_elem_of_here | apply list_elem_of_further].
Qed.

(** The first write of every reply. *)
Lemma reply_shape e cmd p :
  exists code message ls rest,
    reply e (MorningRoutineHandler.cls e) cmd p
    = Head (StatusLine "HTTP/1.0" code message
            :: ls ++ morning_tail (served_path cmd p)) :: rest
    /\ code ∈ [ 200; 301; 304; 404; 501 ]
    /\ (code = 501 <-> cmd <> "GET" /\ cmd <> "HEAD")
    /\ (cmd = "GET" -> p = "/sw.js" \/ p = "/manifest.json" -> code = 200).
Proof.
  unfold reply. rewrite handle_morning. unfold morning_reply, served_path, str_eq, request.
  hsimpl.
  assert (Hcodes : forall code, code ∈ [ 200; 301; 304; 404 ] ->
            code ∈ [ 200; 301; 304; 404; 501 ] /\ code <> 501).
  { intros code. rewrite !elem_of_cons, !elem_of_nil.
    intros [->|[->|[->|[->|[]]]]]; split; auto 10; discriminate. }
  assert (Hstatic : forall get cmd' p' q,
    (cmd' = "GET" \/ cmd' = "HEAD") ->
    (cmd' = "GET" -> q <> "/sw.js" /\ q <> "/manifest.json") ->
    exists code message ls rest,
      wfile (static_reply e morning_tail get
               {| command := cmd'; path := p'; headers_buffer := [];
                  wfile := []; close_connection := true |})
      = Head (StatusLine "HTTP/1.0" code message :: ls ++ morning_tail p') :: rest
      /\ code ∈ [ 200; 301; 304; 404; 501 ]
      /\ (code = 501 <-> cmd' <> "GET" /\ cmd' <> "HEAD")
      /\ (cmd' = "GET" -> q = "/sw.js" \/ q = "/manifest.json" -> code = 200)).
  { intros get cmd' p' q Hcmd Hq. unfold static_reply, emit. hsimpl.
    destruct (static_lines_code e (lookup_static e p')) as (code & m & ls & -> & Hc).
    destruct (Hcodes _ Hc) as [Hc1 Hc2].
    eexists code, m, ls, _. split; [reflexivity|]. split; [exact Hc1|]. split.
    - split; [contradiction|]. intros [? ?]. destruct Hcmd; contradiction.
    - intros Hg [Hs|Hs]; destruct (Hq Hg); contradiction. }
  assert (Hhand : forall ls0 name q,
    exists code message ls rest,
      wfile (snd (hand_written e ls0 name
               {| command := "GET"; path := q; headers_buffer := [];
                  wfile := []; close_connection := true |}))
      = Head (StatusLine "HTTP/1.0" code message :: ls ++ morning_tail q) :: rest
      /\ code ∈ [ 200; 301; 304; 404; 501 ]
      /\ (code = 501 <-> "GET" <> "GET" /\ "GET" <> "HEAD")
      /\ ("GET" = "GET" -> q = "/sw.js" \/ q = "/manifest.json" -> code = 200)).
  { intros ls0 name q. unfold hand_written, emit, response_lines.
    destruct (open_rb e name); hsimpl;
      (eexists 200, "OK", (_ :: _ :: ls0), _; split; [reflexivity|]);
      (split; [apply list_elem_of_here|]);
      (split; [split; [discriminate|intros [? _]; contradiction]|reflexivity]). }
  case_bool_decide as Hget; [subst cmd|]; cbn [andb].
  - case_bool_decide as Hroot; [subst p|].
    + apply (Hstatic true "GET" "/index.html" "/"); [now left|].
      intros _. split; discriminate.
    + case_bool_decide as Hsw; [subst p; apply Hhand|].
      case_bool_decide as Hma; [subst p; apply Hhand|].
      apply (Hstatic true "GET" p p); [now left|]. now intros _.
  - case_bool_decide as Hhead; [subst cmd|].
    + apply (Hstatic false "HEAD" p p); [now right|]. intros; discriminate.
    + unfold unsupported_reply, emit, error_lines. hsimpl.
      eexists 501, _, [ _; _; _; _; _ ], _. split; [reflexivity|].
      split; [do 4 apply list_elem_of_further; apply list_elem_of_here|].
      split; [tauto|]. intros; contradiction.
Qed.

Lemma extension_type_cases ext ctype :
  (ext, ctype) ∈ extension_types ->
  (ext = ".js" /\ ctype = "application/javascript")
  \/ (ext = ".json" /\ ctype = "application/json")
  \/ (ext = ".png" /\ ctype = "image/png").
Proof.
  unfold extension_types. rewrite !elem_of_cons, elem_of_nil.
  intros [[= -> ->]|[[= -> ->]|[[= -> ->]|[]]]]; auto.
Qed.

(** The extension header of a path that ends in one of the extensions. *)
Lemma content_type_override_of p ext ctype :
  (ext, ctype) ∈ extension_types ->
  endswith p ext = true ->
  content_type_override p = [ HeaderLine "Content-Type" ctype ].
Proof.
  intros H Hp. unfold content_type_override.
  apply extension_type_cases in H as [[-> ->]|[[-> ->]|[-> ->]]].
  - now rewrite Hp.
  - rewrite (endswith_exclusive p ".json" ".js") by (assumption || reflexivity).
    now rewrite Hp.
  - rewrite (endswith_exclusive p ".png" ".js") by (assumption || reflexivity).
    rewrite (endswith_exclusive p ".png" ".json") by (assumption || reflexivity).
    now rewrite Hp.
Qed.

Lemma served_path_extension cmd p ext ctype :
  (ext, ctype) ∈ extension_types -> endswith p ext = true -> served_path cmd p = p.
Proof.
  intros H Hp. unfold served_path, str_eq.
  destruct (bool_decide (cmd = "GET")); [|reflexivity]. cbn [andb].
  case_bool_decide as Hroot; [|reflexivity]. subst p. exfalso.
  apply extension_type_cases in H as [[-> ->]|[[-> ->]|[-> ->]]];
    vm_compute in Hp; discriminate.
Qed.

Lemma header_fields_morning_tail p :
  header_fields (morning_tail p)
  = [ ("Cache-Control", "no-cache");
      ("Access-Control-Allow-Origin", "*");
      ("Access-Control-Allow-Methods", "GET, POST, OPTIONS");
      ("Access-Control-Allow-Headers", "Content-Type") ]
    ++ header_fields (content_type_override p).
Proof.
  unfold morning_tail. rewrite !header_fields_app.
  change (header_fields [ BlankLine ]) with (@nil (string * string)).
  now rewrite app_nil_r.
Qed.

(** X11. For every command, when the request path ends in .js, .json or
    .png, the reply carries the content type of that extension, as the last
    header of its header block; this holds for error replies as well. *)
Theorem extension_header_on_every_reply
    (e : env) (cmd p ext ctype : string) :
  (ext, ctype) ∈ extension_types ->
  endswith p ext = true ->
  exists r,
    response_of (reply e (MorningRoutineHandler.cls e) cmd p) = Some r
    /\ ("Content-Type", ctype) ∈ headers r
    /\ last (headers r) = Some ("Content-Type", ctype).
Proof.
  intros Hext Hp.
  destruct (reply_shape e cmd p) as (code & m & ls & rest & -> & _).
  rewrite (served_path_extension cmd p ext ctype) by assumption.
  eexists. split; [reflexivity|]. cbn [headers].
  rewrite header_fields_app, header_fields_morning_tail.
  rewrite (content_type_override_of p ext ctype) by assumption.
  change (header_fields [ HeaderLine "Content-Type" ctype ])
    with [ ("Content-Type", ctype) ].
  split.
  - rewrite !elem_of_app. right. right. apply list_elem_of_here.
  - rewrite !app_assoc. apply last_snoc.
Qed.

Lemma extension_header_on_every_reply_witness :
  exists r,
    response_of (reply (env_of site) (MorningRoutineHandler.cls (env_of site))
                   "GET" "/icons/icon-192.png") = Some r
    /\ ("Content-Type", "image/png") ∈ headers r
    /\ last (headers r) = Some ("Content-Type", "image/png").
Proof.
  apply (extension_header_on_every_reply (env_of site) "GET" "/icons/icon-192.png" ".png").
  - do 2 apply list_elem_of_further. apply list_elem_of_here.
  - vm_compute. reflexivity.
Defined.


Lemma no_data_for_head sr : static_data false "HEAD" sr = [].
Proof. now destruct sr. Qed.

(** X13. The reply to HEAD is one header block and nothing else, for every
    path: /sw.js and /manifest.json get no hand-written reply under HEAD, so
    no Service-Worker-Allowed header is sent. *)
Theorem head_sends_headers_only (e : env) (p : string) :
  exists ls,
    reply e (MorningRoutineHandler.cls e) "HEAD" p = [ Head ls ]
    /\ (forall v, HeaderLine "Service-Worker-Allowed" v ∉ ls)
    /\ (exists r,
          response_of (reply e (MorningRoutineHandler.cls e) "HEAD" p) = Some r
          /\ body r = []).
Proof.
  unfold reply. rewrite handle_morning. unfold morning_reply, request. hsimpl.
  change (str_eq "HEAD" "GET") with false. change (str_eq "HEAD" "HEAD") with true.
  cbv iota. unfold static_reply, emit. hsimpl. rewrite no_data_for_head.
  eexists. split; [reflexivity|]. split.
  - intros v. unfold morning_tail, content_type_override.
    rewrite !not_elem_of_app. repeat split.
    + destruct (lookup_static e p); intros H; apply list_elem_of_In in H;
        cbn in H; intuition discriminate.
    + intros H. apply list_elem_of_In in H. cbn in H. intuition discriminate.
    + destruct (endswith p ".js"), (endswith p ".json"), (endswith p ".png");
        intros H; apply list_elem_of_In in H; cbn in H; intuition discriminate.
    + intros H. apply list_elem_of_singleton in H. discriminate.
  - destruct (static_lines_status e (lookup_static e p)) as (code & m & ls & ->).
    eexists. split; reflexivity.
Qed.

Lemma header_fields_cons k v ls :
  header_fields (HeaderLine k v :: ls) = (k, v) :: header_fields ls.
Proof. reflexivity. Qed.

(** X14. A command other than GET and HEAD is refused with status 501 and
    the page that names the method, and the connection is marked to be
    closed, although the same header block lists POST and OPTIONS among the
    allowed methods. *)
Theorem other_commands_are_refused (e : env) (cmd p : string) :
  cmd <> "GET" -> cmd <> "HEAD" ->
  exists r,
    response_of (reply e (MorningRoutineHandler.cls e) cmd p) = Some r
    /\ status r = 501
    /\ ("Access-Control-Allow-Methods", "GET, POST, OPTIONS") ∈ headers r
    /\ ("Connection", "close") ∈ headers r
    /\ body r
       = error_page 501 ("Unsupported method (" +:+ repr e cmd +:+ ")")
           "Server does not support this operation"
    /\ close_connection
         (snd (handle_one_request e (MorningRoutineHandler.cls e) (request cmd p)))
       = true.
Proof.
  intros Hget Hhead. unfold reply. rewrite handle_morning.
  unfold morning_reply, request, str_eq. hsimpl.
  rewrite (bool_decide_eq_false_2 _ Hget), (bool_decide_eq_false_2 _ Hhead).
  unfold unsupported_reply, emit, error_lines. hsimpl.
  eexists. split; [reflexivity|]. cbn [status headers body].
  split; [reflexivity|]. split; [|split; [|split; [|reflexivity]]].
  - rewrite !header_fields_cons, header_fields_morning_tail.
    do 5 apply list_elem_of_further. apply elem_of_app. left.
    do 2 apply list_elem_of_further. apply list_elem_of_here.
  - rewrite !header_fields_cons.
    do 2 apply list_elem_of_further. apply list_elem_of_here.
  - unfold render. cbn [map render_chunk concat]. apply app_nil_r.
Qed.

Lemma other_commands_are_refused_witness :
  let e := env_of site in
  exists r,
    response_of (reply e (MorningRoutineHandler.cls e) "POST" "/index.html") = Some r
    /\ status r = 501
    /\ ("Access-Control-Allow-Methods", "GET, POST, OPTIONS") ∈ headers r
    /\ ("Connection", "close") ∈ headers r
    /\ body r
       = error_page 501 ("Unsupported method (" +:+ repr e "POST" +:+ ")")
           "Server does not support this operation"
    /\ close_connection
         (snd (handle_one_request e (MorningRoutineHandler.cls e)
                 (request "POST" "/index.html")))
       = true.
Proof.
  apply (other_commands_are_refused (env_of site) "POST" "/index.html"); discriminate.
Defined.

(** X15. After a request, whatever the handler held before: nothing is left
    in the header buffer, the command is unchanged, the path is the request
    path or, for a GET of the root, /index.html, and the writes made are
    added after those already on the connection, at least one of them. *)
Theorem handler_after_request (e : env) (h : handler) :
  let h' := snd (handle_one_request e (MorningRoutineHandler.cls e) h) in
  headers_buffer h' = []
  /\ command h' = command h
  /\ path h' = served_path (command h) (path h)
  /\ exists written, wfile h' = wfile h ++ written /\ written <> [].
Proof.
  cbv zeta. rewrite handle_morning. unfold morning_reply, served_path, str_eq.
  assert (Hemit : forall tail ls rest closes h0,
    headers_buffer (emit tail ls rest closes h0) = []
    /\ command (emit tail ls rest closes h0) = command h0
    /\ path (emit tail ls rest closes h0) = path h0
    /\ exists written,
         wfile (emit tail ls rest closes h0) = wfile h0 ++ written /\ written <> []).
  { intros. repeat split. eexists. split; [reflexivity|discriminate]. }
  assert (Hhand : forall ls name,
    let h' := snd (hand_written e ls name h) in
    headers_buffer h' = []
    /\ command h' = command h
    /\ path h' = path h
    /\ exists written, wfile h' = wfile h ++ written /\ written <> []).
  { intros ls name. unfold hand_written, emit.
    destruct (open_rb e name); hsimpl; repeat split;
      rewrite <- ?app_assoc; (eexists; split; [reflexivity|discriminate]). }
  case_bool_decide as Hget; cbn [andb].
  - case_bool_decide as Hroot.
    + unfold static_reply. cbn [snd].
      destruct (Hemit morning_tail
                  (static_lines e (lookup_static e (path (set_path "/index.html" h))))
                  (static_data true (command (set_path "/index.html" h))
                     (lookup_static e (path (set_path "/index.html" h))))
                  (bool_decide (is_Some (static_error
                     (lookup_static e (path (set_path "/index.html" h))))))
                  (set_path "/index.html" h)) as (H1 & H2 & H3 & H4).
      now destruct h.
    + case_bool_decide as Hsw; [apply Hhand|].
      case_bool_decide as Hma; [apply Hhand|].
      apply Hemit.
  - case_bool_decide as Hhead; apply Hemit.
Qed.

Lemma hand_written_name_required p name ls :
  (p, name, ls) ∈ hand_written_paths -> name ∈ required_files.
Proof.
  intros H. apply hand_written_path_cases in H as [(_ & -> & _)|(_ & -> & _)];
    repeat first [apply list_elem_of_here | apply list_elem_of_further].
Qed.

(** X16. In a working directory that passes the check of [main] for the
    required files, a GET of /sw.js or /manifest.json writes one header
    block only, with status 200, followed by the content of the file; when
    the name is a directory the body is empty. The reply for 404 can only
    follow when the file has gone since the check. *)
Theorem checked_directory_serves_hand_written
    (e : env) (p name : string) (ls : list line) :
  missing_files (cwd e) = [] ->
  (p, name, ls) ∈ hand_written_paths ->
  length (filter (fun c => is_head c = true)
            (reply e (MorningRoutineHandler.cls e) "GET" p)) = 1
  /\ exists r,
       response_of (reply e (MorningRoutineHandler.cls e) "GET" p) = Some r
       /\ status r = 200
       /\ body r = match cwd e !! name with
                   | Some (File content) => content
                   | _ => []
                   end.
Proof.
  intros Hm Hp.
  assert (Hsome : is_Some (cwd e !! name)).
  { destruct (cwd e !! name) eqn:Hd; [eauto|]. exfalso.
    assert (Hin : name ∈ missing_files (cwd e)).
    { unfold missing_files. apply list_elem_of_filter. split.
      - now apply exists_false.
      - eapply hand_written_name_required, Hp. }
    rewrite Hm in Hin. now apply elem_of_nil in Hin. }
  unfold reply. rewrite (handle_hand_written e p name ls Hp).
  unfold hand_written, open_rb, emit, request, response_lines.
  destruct Hsome as [[content|] ->]; hsimpl.
  - split; [reflexivity|]. eexists. split; [reflexivity|]. split; [reflexivity|].
    cbn [body]. unfold render. cbn [map render_chunk concat]. apply app_nil_r.
  - split; [reflexivity|]. eexists. split; [reflexivity|]. split; reflexivity.
Qed.

Lemma checked_directory_serves_hand_written_witness :
  let e := env_of site in
  length (filter (fun c => is_head c = true)
            (reply e (MorningRoutineHandler.cls e) "GET" "/sw.js")) = 1
  /\ exists r,
       response_of (reply e (MorningRoutineHandler.cls e) "GET" "/sw.js") = Some r
       /\ status r = 200
       /\ body r = match cwd e !! "sw.js" with
                   | Some (File content) => content
                   | _ => []
                   end.
Proof.
  apply (checked_directory_serves_hand_written (env_of site) "/sw.js" "sw.js"
           [ HeaderLine "Content-Type" "application/javascript";
             HeaderLine "Service-Worker-Allowed" "/" ]).
  - vm_compute. reflexivity.
  - apply list_elem_of_here.
Defined.

(** X17. A hand-written reply that serves the file sends the file as it is
    and no Content-Length header, in any spelling of the name; it leaves the
    connection marked as the handler found it. *)
Theorem hand_written_reply_has_no_length
    (e : env) (p name : string) (ls : list line) (content : list byte) :
  (p, name, ls) ∈ hand_written_paths ->
  cwd e !! name = Some (File content) ->
  exists r,
    response_of (reply e (MorningRoutineHandler.cls e) "GET" p) = Some r
    /\ body r = content
    /\ (forall k v, (k, v) ∈ headers r -> lower k <> "content-length")
    /\ close_connection
         (snd (handle_one_request e (MorningRoutineHandler.cls e) (request "GET" p)))
       = close_connection (request "GET" p).
Proof.
  intros Hp Hfile. unfold reply. rewrite (handle_hand_written e p name ls Hp).
  unfold hand_written, open_rb. rewrite Hfile.
  unfold emit, request, response_lines. hsimpl.
  eexists. split; [reflexivity|]. cbn [headers body].
  split; [unfold render; cbn [map render_chunk concat]; apply app_nil_r|].
  split; [|reflexivity].
  intros k v. rewrite !header_fields_cons, header_fields_app, header_fields_morning_tail.
  apply hand_written_path_cases in Hp as [(-> & -> & ->)|(-> & -> & ->)];
    rewrite ?content_type_override_js, ?content_type_override_manifest;
    intros H; apply list_elem_of_In in H; cbn in H;
    repeat (destruct H as [H|H]; [injection H as <- <-; vm_compute; discriminate|]);
    contradiction.
Qed.

Lemma hand_written_reply_has_no_length_witness :
  let e := env_of site in
  exists r,
    response_of (reply e (MorningRoutineHandler.cls e) "GET" "/manifest.json") = Some r
    /\ body r = bytes_of "{ }"
    /\ (forall k v, (k, v) ∈ headers r -> lower k <> "content-length")
    /\ close_connection
         (snd (handle_one_request e (MorningRoutineHandler.cls e)
                 (request "GET" "/manifest.json")))
       = close_connection (request "GET" "/manifest.json").
Proof.
  apply (hand_written_reply_has_no_length (env_of site) "/manifest.json" "manifest.json"
           [ HeaderLine "Content-Type" "application/manifest+json" ]).
  - apply list_elem_of_further, list_elem_of_here.
  - vm_compute. reflexivity.
Defined.



(** X19. A GET that the static handler answers with 404, for a path that
    ends in one of the three extensions, carries two content types: that of
    the error page first and that of the extension last, over a body that is
    the HTML error page. *)
Theorem not_found_carries_extension_type (e : env) (p ext ctype : string) :
  p <> "/sw.js" -> p <> "/manifest.json" ->
  lookup_static e p = SNotFound ->
  (ext, ctype) ∈ extension_types ->
  endswith p ext = true ->
  exists r,
    response_of (reply e (MorningRoutineHandler.cls e) "GET" p) = Some r
    /\ status r = 404
    /\ headers r
       = [ ("Server", version_string e); ("Date", date_time_string e);
           ("Connection", "close");
           ("Content-Type", "text/html;charset=utf-8");
           ("Content-Length",
            str (length (error_page 404 "File not found" "Nothing matches the given URI")));
           ("Cache-Control", "no-cache");
           ("Access-Control-Allow-Origin", "*");
           ("Access-Control-Allow-Methods", "GET, POST, OPTIONS");
           ("Access-Control-Allow-Headers", "Content-Type");
           ("Content-Type", ctype) ]
    /\ body r = error_page 404 "File not found" "Nothing matches the given URI".
Proof.
  intros Hsw Hma Hnf Hext Hp.
  assert (Hroot : p <> "/").
  { intros ->. apply extension_type_cases in Hext as [[-> ->]|[[-> ->]|[-> ->]]];
      vm_compute in Hp; discriminate. }
  unfold reply. rewrite handle_morning.
  unfold morning_reply, request, str_eq. hsimpl.
  rewrite (bool_decide_eq_true_2 ("GET" = "GET")) by reflexivity.
  rewrite (bool_decide_eq_false_2 _ Hroot), (bool_decide_eq_false_2 _ Hsw),
    (bool_decide_eq_false_2 _ Hma).
  unfold static_reply, emit. hsimpl. rewrite Hnf.
  cbn [static_lines static_data]. unfold error_lines, error_data.
  change (str_eq "GET" "HEAD") with false. cbn [negb app].
  eexists. split; [reflexivity|]. cbn [status headers body].
  split; [reflexivity|]. split.
  - rewrite !header_fields_cons, header_fields_morning_tail.
    rewrite (content_type_override_of p ext ctype) by assumption. reflexivity.
  - unfold render. cbn [map render_chunk concat]. apply app_nil_r.
Qed.

Lemma not_found_carries_extension_type_witness :
  let e := env_of site in
  exists r,
    response_of (reply e (MorningRoutineHandler.cls e) "GET" "/vendor.js") = Some r
    /\ status r = 404
    /\ headers r
       = [ ("Server", version_string e); ("Date", date_time_string e);
           ("Connection", "close");
           ("Content-Type", "text/html;charset=utf-8");
           ("Content-Length",
            str (length (error_page 404 "File not found" "Nothing matches the given URI")));
           ("Cache-Control", "no-cache");
           ("Access-Control-Allow-Origin", "*");
           ("Access-Control-Allow-Methods", "GET, POST, OPTIONS");
           ("Access-Control-Allow-Headers", "Content-Type");
           ("Content-Type", "application/javascript") ]
    /\ body r = error_page 404 "File not found" "Nothing matches the given URI".
Proof.
  apply (not_found_carries_extension_type (env_of site) "/vendor.js" ".js").
  - discriminate.
  - discriminate.
  - vm_compute. reflexivity.
  - apply list_elem_of_here.
  - vm_compute. reflexivity.
Defined.

(** X20. The heading about missing files is printed exactly when a required
    file is missing, and the first line of the banner exactly when none is:
    [main] reports missing files or starts up, never both. *)
Theorem main_reports_or_starts (m : host) :
  (Print "❌ Missing required files:" ∈ fst (main m)
   <-> missing_files (directory m) <> [])
  /\ (Print "🌅 Morning Routine Tracker - Development Server" ∈ fst (main m)
      <-> missing_files (directory m) = []).
Proof.
  destruct (decide (missing_files (directory m) = [])) as [Hm|Hm].
  - rewrite !in_main_present by assumption. split.
    + split; [|contradiction].
      intros [H|[H|[H|[(err & _ & H)|(_ & [H|[[_ H]|[[_ H]|(err & _ & H)]]])]]]];
        try discriminate; exfalso; revert H.
      * unfold icons_warning. destruct (negb _); not_among.
      * not_among.
      * unfold on_os_error. case_bool_decide; not_among.
      * destruct (browser m); not_among.
      * not_among.
      * unfold on_os_error. case_bool_decide; not_among.
    + split; [now intros _|]. intros _. right. left. apply list_elem_of_here.
  - rewrite main_when_missing by assumption. cbn [fst]. split.
    + split; [now intros _|]. intros _. apply list_elem_of_here.
    + split; [|contradiction].
      rewrite !elem_of_app, !list_elem_of_singleton, list_elem_of_In, in_map_iff.
      intros [H|[(f & H & _)|H]]; discriminate.
Qed.

(** The reply of the static handler to a GET, through [MorningRoutineHandler]. *)
Lemma handle_static_get e p :
  p <> "/sw.js" -> p <> "/manifest.json" ->
  handle_one_request e (MorningRoutineHandler.cls e) (request "GET" p)
  = (Returned,
     static_reply e morning_tail true (set_path (served_path "GET" p) (request "GET" p))).
Proof.
  intros Hsw Hma. rewrite handle_morning.
  unfold morning_reply, served_path, request, str_eq. hsimpl.
  rewrite (bool_decide_eq_true_2 ("GET" = "GET")) by reflexivity. cbn [andb].
  case_bool_decide as Hroot; [reflexivity|].
  now rewrite (bool_decide_eq_false_2 _ Hsw), (bool_decide_eq_false_2 _ Hma).
Qed.

(** X21. A file that the static handler serves under a path ending in one of
    the three extensions is sent whole, with two content types: the one the
    static handler guessed, and after the PWA headers the one of the
    extension, which is added and does not replace the first. *)
Theorem served_file_carries_both_types
    (e : env) (p ext ctype guessed last_modified : string) (content : list byte) :
  p <> "/sw.js" -> p <> "/manifest.json" ->
  lookup_static e p = SFile guessed last_modified content ->
  (ext, ctype) ∈ extension_types ->
  endswith p ext = true ->
  exists r,
    response_of (reply e (MorningRoutineHandler.cls e) "GET" p) = Some r
    /\ status r = 200
    /\ headers r
       = [ ("Server", version_string e); ("Date", date_time_string e);
           ("Content-type", guessed);
           ("Content-Length", str (length content));
           ("Last-Modified", last_modified);
           ("Cache-Control", "no-cache");
           ("Access-Control-Allow-Origin", "*");
           ("Access-Control-Allow-Methods", "GET, POST, OPTIONS");
           ("Access-Control-Allow-Headers", "Content-Type");
           ("Content-Type", ctype) ]
    /\ body r = content.
Proof.
  intros Hsw Hma Hfile Hext Hp. unfold reply.
  rewrite handle_static_get by assumption.
  rewrite (served_path_extension "GET" p ext ctype) by assumption.
  unfold static_reply, emit, request. hsimpl. rewrite Hfile.
  cbn [static_lines static_data]. unfold response_lines. cbn [app].
  eexists. split; [reflexivity|]. cbn [status headers body].
  split; [reflexivity|]. split.
  - rewrite !header_fields_cons, header_fields_morning_tail.
    rewrite (content_type_override_of p ext ctype) by assumption. reflexivity.
  - unfold render. cbn [map render_chunk concat]. apply app_nil_r.
Qed.

Lemma served_file_carries_both_types_witness :
  let e := env_of site in
  exists r,
    response_of (reply e (MorningRoutineHandler.cls e) "GET" "/app.js") = Some r
    /\ status r = 200
    /\ headers r
       = [ ("Server", version_string e); ("Date", date_time_string e);
           ("Content-type", "application/javascript");
           ("Content-Length", str (length (bytes_of "console.log('ready');")));
           ("Last-Modified", "Thu, 01 Jan 2026 00:00:00 GMT");
           ("Cache-Control", "no-cache");
           ("Access-Control-Allow-Origin", "*");
           ("Access-Control-Allow-Methods", "GET, POST, OPTIONS");
           ("Access-Control-Allow-Headers", "Content-Type");
           ("Content-Type", "application/javascript") ]
    /\ body r = bytes_of "console.log('ready');".
Proof.
  apply (served_file_carries_both_types (env_of site) "/app.js" ".js").
  - discriminate.
  - discriminate.
  - vm_compute. reflexivity.
  - apply list_elem_of_here.
  - vm_compute. reflexivity.
Defined.

(** X22. A file served under a path that ends in none of the three
    extensions (the root path counts as /index.html) is sent whole with the
    content type the static handler guessed and no other. *)
Theorem served_file_keeps_guessed_type
    (e : env) (p guessed last_modified : string) (content : list byte) :
  p <> "/sw.js" -> p <> "/manifest.json" ->
  lookup_static e (served_path "GET" p) = SFile guessed last_modified content ->
  endswith (served_path "GET" p) ".js" = false ->
  endswith (served_path "GET" p) ".json" = false ->
  endswith (served_path "GET" p) ".png" = false ->
  exists r,
    response_of (reply e (MorningRoutineHandler.cls e) "GET" p) = Some r
    /\ status r = 200
    /\ headers r
       = [ ("Server", version_string e); ("Date", date_time_string e);
           ("Content-type", guessed);
           ("Content-Length", str (length content));
           ("Last-Modified", last_modified);
           ("Cache-Control", "no-cache");
           ("Access-Control-Allow-Origin", "*");
           ("Access-Control-Allow-Methods", "GET, POST, OPTIONS");
           ("Access-Control-Allow-Headers", "Content-Type") ]
    /\ body r = content.
Proof.
  intros Hsw Hma Hfile Hjs Hjson Hpng. unfold reply.
  rewrite handle_static_get by assumption.
  unfold static_reply, emit, request. hsimpl. rewrite Hfile.
  cbn [static_lines static_data]. unfold response_lines. cbn [app].
  eexists. split; [reflexivity|]. cbn [status headers body].
  split; [reflexivity|]. split.
  - rewrite !header_fields_cons, header_fields_morning_tail.
    unfold content_type_override. now rewrite Hjs, Hjson, Hpng.
  - unfold render. cbn [map render_chunk concat]. apply app_nil_r.
Qed.

Lemma served_file_keeps_guessed_type_witness :
  let e := env_of site in
  exists r,
    response_of (reply e (MorningRoutineHandler.cls e) "GET" "/") = Some r
    /\ status r = 200
    /\ headers r
       = [ ("Server", version_string e); ("Date", date_time_string e);
           ("Content-type", "text/html");
           ("Content-Length",
            str (length (bytes_of "<!DOCTYPE html><title>Morning Routine</title>")));
           ("Last-Modified", "Thu, 01 Jan 2026 00:00:00 GMT");
           ("Cache-Control", "no-cache");
           ("Access-Control-Allow-Origin", "*");
           ("Access-Control-Allow-Methods", "GET, POST, OPTIONS");
           ("Access-Control-Allow-Headers", "Content-Type") ]
    /\ body r = bytes_of "<!DOCTYPE html><title>Morning Routine</title>".
Proof.
  apply (served_file_keeps_guessed_type (env_of site) "/");
    first [discriminate | vm_compute; reflexivity].
Defined.

(** X23. A path the static handler does not find is answered with status
    404 and the connection marked to be closed, for GET with the HTML error
    page as body and for HEAD without body. *)
Theorem static_not_found (e : env) (cmd p : string) :
  cmd = "GET" \/ cmd = "HEAD" ->
  (cmd = "GET" -> p <> "/sw.js" /\ p <> "/manifest.json") ->
  lookup_static e (served_path cmd p) = SNotFound ->
  exists r,
    response_of (reply e (MorningRoutineHandler.cls e) cmd p) = Some r
    /\ status r = 404
    /\ body r = (if str_eq cmd "GET"
                 then error_page 404 "File not found" "Nothing matches the given URI"
                 else [])
    /\ close_connection
         (snd (handle_one_request e (MorningRoutineHandler.cls e) (request cmd p)))
       = true.
Proof.
  intros [->| ->] Hp Hnf.
  - destruct (Hp eq_refl) as [Hsw Hma]. unfold reply.
    rewrite handle_static_get by assumption.
    unfold static_reply, emit, request. hsimpl. rewrite Hnf.
    cbn [static_lines static_data static_error]. unfold error_lines, error_data.
    change (str_eq "GET" "HEAD") with false. change (str_eq "GET" "GET") with true.
    cbn [negb app]. eexists. split; [reflexivity|]. cbn [status body].
    split; [reflexivity|]. split; [|reflexivity].
    unfold render. cbn [map render_chunk concat]. apply app_nil_r.
  - unfold reply. rewrite handle_morning. unfold morning_reply, request. hsimpl.
    change (str_eq "HEAD" "GET") with false. change (str_eq "HEAD" "HEAD") with true.
    cbv iota. unfold static_reply, emit. hsimpl.
    change (served_path "HEAD" p) with p in Hnf. rewrite Hnf.
    cbn [static_lines static_data static_error]. unfold error_lines, error_data.
    change (str_eq "HEAD" "HEAD") with true. cbn [negb app].
    eexists. split; [reflexivity|]. cbn [status body].
    split; [reflexivity|]. split; reflexivity.
Qed.

Lemma static_not_found_witness :
  let e := env_of site in
  exists r,
    response_of (reply e (MorningRoutineHandler.cls e) "GET" "/does-not-exist.html") = Some r
    /\ status r = 404
    /\ body r = (if str_eq "GET" "GET"
                 then error_page 404 "File not found" "Nothing matches the given URI"
                 else [])
    /\ close_connection
         (snd (handle_one_request e (MorningRoutineHandler.cls e)
                 (request "GET" "/does-not-exist.html")))
       = true.
Proof.
  apply (static_not_found (env_of site) "GET" "/does-not-exist.html").
  - left. reflexivity.
  - intros _. split; discriminate.
  - vm_compute. reflexivity.
Defined.
